(** * glam-store: the product backend of [src/index.js]

    A shallow embedding of the Express application: the configuration read
    from the process environment, the admin gate [checkAdmin], the login
    handler, the five product handlers over the Mongoose model [Product],
    and the upload handler that forwards a staged file to the media host.

    Conventions.
    - A JavaScript expression evaluates to an [option value]; [None] is
      [undefined].  Objects used as dictionaries ([process.env],
      [req.headers], [req.query], [req.body], a stored document) are
      [gmap string _]: a key that is not bound reads as [undefined].
      [req.body] is an object: [express.json()] leaves an empty one when the
      request has no body.
    - The handlers never compute with numbers: a number is only tested for
      truthiness, compared or copied, so [Z] stands for the numbers.
    - An [async] handler is a computation in [M]: it reads and writes the
      [world] (the products collection and the files under tmp/) and an
      awaited promise either resolves or rejects; [try]/[catch] is
      [try_catch].  [console.log] and [console.error] are not part of the
      state.
    - What the libraries decide (how Mongoose casts a request value to a
      schema type, which strings are ObjectIds, whether the part of an
      update document outside the product schema can be cast) is a
      parameter of the development, see [Mongoose]; what the outside world
      decides while one request is served (the clock, the identifier of a
      new document, the answer of the media host, what the database makes
      of update operators) is the record [Ambient].
    - The store is reachable: a store call rejects only for what the
      request carries (a cast or validation failure, a duplicate key, an
      update the database refuses).  The errors of the multipart parser
      are left out. *)

From stdpp Require Import gmap strings list sorting pretty.

Open Scope string_scope.

(** ** JavaScript values *)

#[local] Unset Elimination Schemes.
Inductive value : Type :=
| VNull
| VBool (b : bool)
| VNum (n : Z)
| VStr (s : string)
| VDate (ms : Z)
| VArr (vs : list value)
| VObj (kvs : list (string * value)).
#[local] Set Elimination Schemes.

(** [!!v]: [undefined], [null], [false], [0] and the empty string are falsy;
    every object (a date, an array, a plain object) is truthy. *)
Definition truthy (v : option value) : bool :=
  match v with
  | None | Some VNull => false
  | Some (VBool b) => b
  | Some (VNum n) => negb (n =? 0)%Z
  | Some (VStr s) => negb (String.eqb s "")
  | Some (VDate _) | Some (VArr _) | Some (VObj _) => true
  end.

(** [a || b] *)
Definition js_or (a b : option value) : option value :=
  if truthy a then a else b.

(** [a === b].  Objects compare by reference; the handlers only compare a
    value taken from the request with a configuration constant, which are
    never the same object. *)
Definition strict_eq (a b : option value) : bool :=
  match a, b with
  | None, None => true
  | Some VNull, Some VNull => true
  | Some (VBool x), Some (VBool y) => Bool.eqb x y
  | Some (VNum x), Some (VNum y) => (x =? y)%Z
  | Some (VStr x), Some (VStr y) => String.eqb x y
  | _, _ => false
  end.

(** [o[k]] on a dictionary of strings (headers, environment). *)
Definition get_str (o : gmap string string) (k : string) : option value :=
  VStr <$> o !! k.

(** [a || b] where [a] is a string or [undefined] and [b] a string: the
    result is a string (see [or_str_js_or]). *)
Definition or_str (a : option string) (b : string) : string :=
  match a with
  | Some s => if String.eqb s "" then b else s
  | None => b
  end.

(** ** Store, file system and responses *)

Definition ObjectId := N.

Record Doc := mkDoc { _id : ObjectId; fields : gmap string value }.

Record world := mkWorld {
  db : list Doc;            (* the products collection, in insertion order *)
  tmp : gset string         (* the files present under tmp/ *)
}.

Inductive payload :=
| JObject (o : gmap string value)
| JDoc (d : Doc)
| JDocs (ds : list Doc).

Record response := mkResponse { status : Z; json : payload }.

(** [res.status(c).json({ error: msg })] *)
Definition error_body (msg : string) : payload :=
  JObject {[ "error" := VStr msg ]}.

(** [res.json(x)] answers with status 200. *)
Definition res_json (p : payload) : response := mkResponse 200 p.

Record request := mkRequest {
  headers : gmap string string;
  query : gmap string value;
  params_id : string;               (* req.params.id *)
  body : gmap string value;         (* req.body after express.json() *)
  attachment : option string;       (* multipart field 'image': the path multer stages it at *)
  file : option string              (* req.file.path, set by multer *)
}.

(** ** Promises, exceptions and [try]/[catch] *)

Inductive error :=
| CastError | ValidationError | DuplicateKey | MongoServerError | ENOENT | UploadError.

Inductive outcome (A : Type) :=
| Resolved (a : A)
| Rejected (e : error).
Arguments Resolved {A} a.
Arguments Rejected {A} e.

Definition M (A : Type) : Type := world → outcome A * world.

Definition ret {A} (a : A) : M A := λ w, (Resolved a, w).
Definition throw {A} (e : error) : M A := λ w, (Rejected e, w).
Definition bind {A B} (m : M A) (k : A → M B) : M B :=
  λ w, match m w with
       | (Resolved a, w') => k a w'
       | (Rejected e, w') => (Rejected e, w')
       end.
Definition try_catch {A} (m : M A) (h : error → M A) : M A :=
  λ w, match m w with
       | (Resolved a, w') => (Resolved a, w')
       | (Rejected e, w') => h e w'
       end.

Notation "'let!' x ':=' m 'in' k" := (bind m (λ x, k))
  (at level 10, x name, m at level 100, k at level 200, only parsing).

(** ** Express: middleware and routes *)

Inductive step :=
| Respond (r : response)
| Next (rq : request).

Definition middleware := request → world → step * world.
Definition handler := request → M response.

Fixpoint run_stack (ms : list middleware) (h : handler) (rq : request) : M response :=
  match ms with
  | [] => h rq
  | m :: ms' => λ w,
      match m rq w with
      | (Respond r, w') => (Resolved r, w')
      | (Next rq', w') => run_stack ms' h rq' w'
      end
  end.

(** ** What the libraries and the outside world decide *)

(** The casts of Mongoose: [None] is a cast failure (a [CastError]).
    [castOther] is the cast of the part of an update document that is not
    made of paths of the product schema (update operators, [_id], the
    version key, keys the schema does not know): [false] is a cast
    failure. *)
Class Mongoose := {
  castObjectId : string → option ObjectId;
  castString : value → option value;
  castNumber : value → option value;
  castDate : value → option value;
  castOther : gmap string value → bool
}.

(** The casts keep a value that already has the type of its path. *)
Class MongooseTyped `{Mongoose} : Prop := {
  castString_str : ∀ s, castString (VStr s) = Some (VStr s);
  castNumber_num : ∀ n, castNumber (VNum n) = Some (VNum n)
}.

Record Ambient := mkAmbient {
  Date_now : Z;                                  (* Date.now() *)
  new_ObjectId : ObjectId;                       (* the _id given to a new document *)
  uploader_upload : string → string → outcome (string * string);
    (* cloudinary.uploader.upload(path, { folder }): secure_url and public_id, or a rejection *)
  apply_other : gmap string value → gmap string value → Doc → option (gmap string value)
    (* what the database makes of a matched document when the update document has keys
       outside the product schema: from those keys, the cast values of the schema paths and
       the document, the fields after the update, or a rejection *)
}.

(** ** The product schema *)

Inductive SchemaType := SString | SNumber | SDate.

Inductive Default :=
| NoDefault
| DefaultValue (v : value)
| DefaultNow.                                    (* default: Date.now *)

Record SchemaPath := mkPath { stype : SchemaType; required : bool; default : Default }.

Definition productSchema : list (string * SchemaPath) :=
  [ ("name", mkPath SString true NoDefault);
    ("brand", mkPath SString false NoDefault);
    ("size", mkPath SString false NoDefault);
    ("description", mkPath SString false NoDefault);
    ("price", mkPath SNumber false (DefaultValue (VNum 0)));
    ("imageUrl", mkPath SString false NoDefault);
    ("createdAt", mkPath SDate false DefaultNow) ].

(** A document under construction: its content and the paths whose value
    could not be cast (reported when the document is validated). *)
Record Model := mkModel { doc : Doc; cast_errors : list string }.

(** The object literal [{ k1, ..., kn }] built from the variables
    destructured from [o]: the keys of [ks] that [o] binds. *)
Definition pick (ks : list string) (o : gmap string value) : gmap string value :=
  filter (λ kv, kv.1 ∈ ks) o.

(** ** The collection *)

Definition find_doc (o : ObjectId) (ds : list Doc) : option Doc :=
  List.find (λ d, N.eqb (_id d) o) ds.

Fixpoint update_first (o : ObjectId) (f : Doc → Doc) (ds : list Doc) : list Doc :=
  match ds with
  | [] => []
  | d :: ds' => if N.eqb (_id d) o then f d :: ds' else d :: update_first o f ds'
  end.

Fixpoint delete_first (o : ObjectId) (ds : list Doc) : list Doc :=
  match ds with
  | [] => []
  | d :: ds' => if N.eqb (_id d) o then ds' else d :: delete_first o ds'
  end.

(** The sort key of [sort({ createdAt })]: the date of the document; a
    document without a date ([null] or no value) sorts below every date. *)
Definition createdAt_key (d : Doc) : option Z :=
  match fields d !! "createdAt" with
  | Some (VDate t) => Some t
  | _ => None
  end.

Definition key_le (a b : option Z) : bool :=
  match a, b with
  | None, _ => true
  | Some _, None => false
  | Some x, Some y => (x <=? y)%Z
  end.

(** [sort({ createdAt: -1 })]: [d1] may come before [d2]. *)
Definition newer_first (d1 d2 : Doc) : Prop := key_le (createdAt_key d2) (createdAt_key d1).

#[global] Instance newer_first_dec d1 d2 : Decision (newer_first d1 d2).
Proof. unfold newer_first. apply _. Defined.

(** ** The application *)

Section App.
Context `{Mongoose}.
Variable env : gmap string string.       (* process.env *)
Variable amb : Ambient.

Definition ADMIN_PASSWORD : option value := get_str env "ADMIN_PASSWORD".
Definition ADMIN_TOKEN : string := or_str (env !! "ADMIN_TOKEN") "changeme".

(** *** Mongoose: documents *)

Definition cast (t : SchemaType) : value → option value :=
  match t with
  | SString => castString
  | SNumber => castNumber
  | SDate => castDate
  end.

Definition default_value (dflt : Default) : option value :=
  match dflt with
  | NoDefault => None
  | DefaultValue v => Some v
  | DefaultNow => Some (VDate (Date_now amb))
  end.

Definition set_field (p : string) (v : value) (m : Model) : Model :=
  mkModel (mkDoc (_id (doc m)) (<[p := v]> (fields (doc m)))) (cast_errors m).

(** One path of [new Product(obj)]: a supplied value is cast, a path left
    [undefined] takes its default. *)
Definition init_path (obj : gmap string value) (entry : string * SchemaPath) (m : Model) : Model :=
  let '(p, sp) := entry in
  match obj !! p with
  | Some v =>
      match cast (stype sp) v with
      | Some v' => set_field p v' m
      | None => mkModel (doc m) (p :: cast_errors m)
      end
  | None =>
      match default_value (default sp) with
      | Some v => set_field p v m
      | None => m
      end
  end.

(** [new Product(obj)] *)
Definition new_Product (obj : gmap string value) : Model :=
  foldr (init_path obj) (mkModel (mkDoc (new_ObjectId amb) ∅) []) productSchema.

(** The [required] validator: the value is there, and is not the empty string. *)
Definition required_ok (v : option value) : bool :=
  match v with
  | None | Some VNull => false
  | Some (VStr s) => negb (String.eqb s "")
  | Some _ => true
  end.

Definition valid (m : Model) : bool :=
  bool_decide (cast_errors m = []) &&
  forallb (λ e : string * SchemaPath, implb (required e.2) (required_ok (fields (doc m) !! e.1)))
          productSchema.

(** The version key that a document gets when it is first saved. *)
Definition set_version (d : Doc) : Doc :=
  mkDoc (_id d) (<["__v" := VNum 0]> (fields d)).

(** [prod.save()]: validate, set the version key, then insert; [_id] is a
    unique key.  [save] changes the document it is called on: the result
    is that document as [save] leaves it. *)
Definition save (m : Model) : M Doc := λ w,
  if negb (valid m) then (Rejected ValidationError, w)
  else if bool_decide (_id (doc m) ∈ _id <$> db w) then (Rejected DuplicateKey, w)
  else (Resolved (set_version (doc m)), mkWorld (db w ++ [set_version (doc m)]) (tmp w)).

(** *** Mongoose: queries *)

(** [Product.find().sort({ createdAt: -1 })] *)
Definition find_sorted : M (list Doc) := λ w,
  (Resolved (merge_sort newer_first (db w)), w).

(** [Product.findById(id)] *)
Definition findById (id : string) : M (option Doc) := λ w,
  match castObjectId id with
  | None => (Rejected CastError, w)
  | Some o => (Resolved (find_doc o (db w)), w)
  end.

(** The part of an update document that is not made of paths of the
    product schema: update operators, [_id], the version key, unknown keys. *)
Definition other_part (upd : gmap string value) : gmap string value :=
  filter (λ kv, kv.1 ∉ productSchema.*1) upd.

(** The paths of the product schema in an update document, cast path by
    path. *)
Definition castPaths (upd : gmap string value) : option (gmap string value) :=
  foldr (λ (e : string * SchemaPath) acc,
           match upd !! e.1 with
           | None => acc
           | Some v =>
               match acc, cast (stype e.2) v with
               | Some s, Some v' => Some (<[e.1 := v']> s)
               | _, _ => None
               end
           end)
        (Some ∅) productSchema.

(** The cast of an update document: the cast values of its schema paths,
    when these and the rest of the document can be cast. *)
Definition castUpdate (upd : gmap string value) : option (gmap string value) :=
  if decide (other_part upd = ∅) then castPaths upd
  else if castOther (other_part upd) then castPaths upd
  else None.

(** [$set]: the cast fields overwrite, the others stay. *)
Definition set_fields (s : gmap string value) (d : Doc) : Doc :=
  mkDoc (_id d) (s ∪ fields d).

(** The matched document after the update: a [$set] of the cast paths when
    the update document has nothing else, otherwise what the database makes
    of it; the identifier of a document does not change. *)
Definition updated (upd s : gmap string value) (d : Doc) : option Doc :=
  if decide (other_part upd = ∅) then Some (set_fields s d)
  else mkDoc (_id d) <$> apply_other amb (other_part upd) s d.

(** [Product.findByIdAndUpdate(id, upd, { new: true })] *)
Definition findByIdAndUpdate (id : string) (upd : gmap string value) : M (option Doc) := λ w,
  match castObjectId id, castUpdate upd with
  | Some o, Some s =>
      match find_doc o (db w) with
      | None => (Resolved None, w)
      | Some d =>
          match updated upd s d with
          | Some d' =>
              (Resolved (Some d'), mkWorld (update_first o (λ _, d') (db w)) (tmp w))
          | None => (Rejected MongoServerError, w)
          end
      end
  | _, _ => (Rejected CastError, w)
  end.

(** [Product.findByIdAndDelete(id)] *)
Definition findByIdAndDelete (id : string) : M (option Doc) := λ w,
  match castObjectId id with
  | None => (Rejected CastError, w)
  | Some o => (Resolved (find_doc o (db w)), mkWorld (delete_first o (db w)) (tmp w))
  end.

(** *** The admin gate *)

Definition unauthorized : response :=
  mkResponse 401 (JObject {[ "ok" := VBool false; "error" := VStr "Unauthorized" ]}).

(** [req.headers['x-admin-token'] || req.query.token] *)
Definition token_of (rq : request) : option value :=
  js_or (get_str (headers rq) "x-admin-token") (query rq !! "token").

Definition checkAdmin : middleware := λ rq w,
  let token := token_of rq in
  if negb (truthy token) || negb (strict_eq token (Some (VStr ADMIN_TOKEN)))
  then (Respond unauthorized, w)
  else (Next rq, w).

(** *** Handlers *)

Definition server_error : response := mkResponse 500 (error_body "Server error").
Definition not_found : response := mkResponse 404 (error_body "Not found").

(** POST /api/login *)
Definition login : handler := λ rq,
  let password := body rq !! "password" in
  if negb (truthy password)
  then ret (mkResponse 400 (JObject {[ "ok" := VBool false; "error" := VStr "Missing password" ]}))
  else if negb (strict_eq password ADMIN_PASSWORD)
  then ret (mkResponse 401 (JObject {[ "ok" := VBool false; "error" := VStr "Wrong password" ]}))
  else ret (res_json (JObject {[ "ok" := VBool true; "token" := VStr ADMIN_TOKEN ]})).

(** GET /api/products *)
Definition list_products : handler := λ rq,
  try_catch
    (let! products := find_sorted in
     ret (res_json (JDocs products)))
    (λ err, ret server_error).

(** GET /api/products/:id *)
Definition get_product : handler := λ rq,
  try_catch
    (let! p := findById (params_id rq) in
     match p with
     | None => ret not_found
     | Some d => ret (res_json (JDoc d))
     end)
    (λ err, ret server_error).

(** POST /api/products *)
Definition create_product : handler := λ rq,
  try_catch
    (let name := body rq !! "name" in
     if negb (truthy name) then ret (mkResponse 400 (error_body "Name is required"))
     else
       let prod := new_Product
                     (pick ["name"; "brand"; "size"; "description"; "price"; "imageUrl"] (body rq)) in
       let! prod := save prod in
       ret (res_json (JDoc prod)))
    (λ err, ret server_error).

(** PUT /api/products/:id *)
Definition update_product : handler := λ rq,
  try_catch
    (let! updated := findByIdAndUpdate (params_id rq) (body rq) in
     match updated with
     | None => ret not_found
     | Some d => ret (res_json (JDoc d))
     end)
    (λ err, ret server_error).

(** DELETE /api/products/:id *)
Definition delete_product : handler := λ rq,
  try_catch
    (let! removed := findByIdAndDelete (params_id rq) in
     match removed with
     | None => ret not_found
     | Some _ => ret (res_json (JObject {[ "ok" := VBool true ]}))
     end)
    (λ err, ret server_error).

(** [multer({ dest: 'tmp/' }).single('image')]: the attached file is written
    under tmp/ and [req.file] describes it. *)
Definition upload_single : middleware := λ rq w,
  match attachment rq with
  | Some p =>
      (Next (mkRequest (headers rq) (query rq) (params_id rq) (body rq) (attachment rq) (Some p)),
       mkWorld (db w) ({[ p ]} ∪ tmp w))
  | None => (Next rq, w)
  end.

(** [cloudinary.uploader.upload(path, { folder: 'jubilate_products' })] *)
Definition cloudinary_upload (p : string) : M (string * string) := λ w,
  (uploader_upload amb p "jubilate_products", w).

(** [fs.unlinkSync(path)] *)
Definition unlinkSync (p : string) : M () := λ w,
  if bool_decide (p ∈ tmp w)
  then (Resolved (), mkWorld (db w) (tmp w ∖ {[ p ]}))
  else (Rejected ENOENT, w).

(** POST /api/upload *)
Definition upload_image : handler := λ rq,
  try_catch
    (match file rq with
     | None => ret (mkResponse 400 (error_body "No file uploaded"))
     | Some p =>
         let! result := cloudinary_upload p in
         let! _ := unlinkSync p in
         ret (res_json (JObject {[ "ok" := VBool true;
                                   "url" := VStr result.1;
                                   "public_id" := VStr result.2 ]}))
     end)
    (λ err, ret (mkResponse 500 (error_body "Upload failed"))).

(** *** Routes *)

Inductive route :=
| POST_login
| GET_products
| GET_product
| POST_products
| PUT_product
| DELETE_product
| POST_upload.

Definition stack (r : route) : list middleware * handler :=
  match r with
  | POST_login => ([], login)
  | GET_products => ([], list_products)
  | GET_product => ([], get_product)
  | POST_products => ([checkAdmin], create_product)
  | PUT_product => ([checkAdmin], update_product)
  | DELETE_product => ([checkAdmin], delete_product)
  | POST_upload => ([checkAdmin; upload_single], upload_image)
  end.

Definition serve (r : route) : request → M response :=
  run_stack (stack r).1 (stack r).2.

End App.

(** ** An instance of the casts, to run the handlers *)

(** An ObjectId is written as 24 hexadecimal digits. *)
Definition hex_digit (c : Ascii.ascii) : option N :=
  let n := Ascii.N_of_ascii c in
  if ((48 <=? n) && (n <=? 57))%N then Some (n - 48)%N
  else if ((97 <=? n) && (n <=? 102))%N then Some (n - 87)%N
  else if ((65 <=? n) && (n <=? 70))%N then Some (n - 55)%N
  else None.

Fixpoint parse_hex (acc : N) (s : string) : option N :=
  match s with
  | EmptyString => Some acc
  | String c s' =>
      match hex_digit c with
      | Some d => parse_hex (16 * acc + d)%N s'
      | None => None
      end
  end.

Definition objectid_of_string (s : string) : option ObjectId :=
  if (String.length s =? 24)%nat then parse_hex 0 s else None.

(** The keys of an update document that stand for more than an unknown
    field: update operators, [_id] and the version key. *)
Definition special_key (k : string) : bool :=
  String.prefix "$" k || String.eqb k "_id" || String.eqb k "__v".

(** The casts on the scalars of a JSON body: a value of the right type and
    [null] are kept, a number or a boolean becomes a string on a string
    path, a boolean becomes a number on a number path, a number of
    milliseconds becomes a date; everything else is refused (the
    conversions of numeric strings and of date strings are left out).  Of
    the rest of an update document the instance takes the keys that the
    schema does not know, which the sample database drops (see [host_up]);
    it takes no update operator, [_id] or version key. *)
#[global] Instance mongoose_casts : Mongoose := {|
  castObjectId := objectid_of_string;
  castString v :=
    match v with
    | VNull | VStr _ => Some v
    | VNum n => Some (VStr (pretty n))
    | VBool b => Some (VStr (if b then "true" else "false"))
    | _ => None
    end;
  castNumber v :=
    match v with
    | VNull | VNum _ => Some v
    | VBool b => Some (VNum (if b then 1 else 0))
    | _ => None
    end;
  castDate v :=
    match v with
    | VNull | VDate _ => Some v
    | VNum n => Some (VDate n)
    | _ => None
    end;
  castOther other :=
    forallb (λ kv : string * value, negb (special_key kv.1)) (map_to_list other)
|}.

(** ** Vocabulary of the statements *)

(** The candidate token of the gate, case by case: the header when it is
    there and not empty, the query parameter otherwise. *)
Definition candidate (rq : request) : option value :=
  match headers rq !! "x-admin-token" with
  | Some h => if decide (h = "") then query rq !! "token" else Some (VStr h)
  | None => query rq !! "token"
  end.

(** The candidate token by presence: the header when the request has it,
    the query parameter when the header is absent. *)
Definition candidate_by_presence (rq : request) : option value :=
  match headers rq !! "x-admin-token" with
  | Some h => Some (VStr h)
  | None => query rq !! "token"
  end.

(** The routes that change products or upload. *)
Definition guarded (r : route) : bool :=
  match r with
  | POST_products | PUT_product | DELETE_product | POST_upload => true
  | _ => false
  end.

(** The stack of a guarded route behind the gate. *)
Definition behind_gate `{Mongoose} (env : gmap string string) (amb : Ambient) (r : route)
    : request → M response :=
  run_stack (tail (stack env amb r).1) (stack env amb r).2.

(** The request presents the admin token; a route that is not guarded asks
    for nothing. *)
Definition authorized (env : gmap string string) (r : route) (rq : request) : Prop :=
  guarded r = true → candidate rq = Some (VStr (ADMIN_TOKEN env)).

(** The three answers of the login handler. *)
Definition missing_password : response :=
  mkResponse 400 (JObject {[ "ok" := VBool false; "error" := VStr "Missing password" ]}).
Definition wrong_password : response :=
  mkResponse 401 (JObject {[ "ok" := VBool false; "error" := VStr "Wrong password" ]}).
Definition logged_in (env : gmap string string) : response :=
  mkResponse 200 (JObject {[ "ok" := VBool true; "token" := VStr (ADMIN_TOKEN env) ]}).

(** The fields of a product that a request body carries (section 6 of the
    specification): text for five of them, a number for the price. *)
Definition product_fields : list string :=
  ["name"; "brand"; "size"; "description"; "price"; "imageUrl"].

Definition typed_field (k : string) (v : value) : Prop :=
  if decide (k = "price") then ∃ n, v = VNum n else ∃ s, v = VStr s.

(** A body whose product fields have the type of their path. *)
Definition typed_body (b : gmap string value) : Prop :=
  ∀ k v, k ∈ product_fields → b !! k = Some v → typed_field k v.

(** A body that is a partial set of product field values. *)
Definition partial_product (b : gmap string value) : Prop :=
  ∀ k v, b !! k = Some v → k ∈ product_fields ∧ typed_field k v.

(** The defaults of a schema, as one dictionary. *)
Definition schema_defaults (amb : Ambient) (sch : list (string * SchemaPath))
    : gmap string value :=
  foldr (λ (e : string * SchemaPath) D,
           match default_value amb (default e.2) with
           | Some v => <[e.1 := v]> D
           | None => D
           end) ∅ sch.

(** The status codes the application answers with. *)
Definition statuses : list Z := [200; 400; 401; 404; 500]%Z.

(** The identifiers of the records in the store. *)
Definition ids (w : world) : list ObjectId := _id <$> db w.

(** The request with another body. *)
Definition with_body (rq : request) (b : gmap string value) : request :=
  mkRequest (headers rq) (query rq) (params_id rq) b (attachment rq) (file rq).

(** *** Sample data *)

Definition shop_env : gmap string string :=
  {[ "ADMIN_PASSWORD" := "s3cret"; "ADMIN_TOKEN" := "tok-4711" ]}.

(** The media host answers.  The sample database drops the keys of an
    update document that the schema does not know. *)
Definition host_up : Ambient :=
  mkAmbient 1700000000000%Z 2%N
    (λ p folder, Resolved ("https://res.cloudinary.com/demo/" +:+ folder +:+ "/a1.png",
                           folder +:+ "/a1"))
    (λ other s d, Some (s ∪ fields d)).

(** The media host refuses the upload. *)
Definition host_down : Ambient :=
  mkAmbient 1700000000000%Z 2%N (λ p folder, Rejected UploadError)
    (λ other s d, Some (s ∪ fields d)).

Definition lipstick : Doc :=
  mkDoc 1%N {[ "name" := VStr "Lipstick"; "brand" := VStr "Glam"; "price" := VNum 12;
               "createdAt" := VDate 1600000000000; "__v" := VNum 0 ]}.

Definition shop : world := mkWorld [lipstick] ∅.

(** A request that carries nothing. *)
Definition empty_request : request := mkRequest ∅ ∅ "" ∅ None None.

Definition mascara : Doc :=
  mkDoc 2%N {[ "name" := VStr "Mascara"; "price" := VNum 0;
               "createdAt" := VDate 1700000000000; "__v" := VNum 0 ]}.

Definition admin_headers : gmap string string := {[ "x-admin-token" := "tok-4711" ]}.

(** POST /api/products { "name": "Mascara" }, with the admin token. *)
Definition create_mascara : request :=
  mkRequest admin_headers ∅ "" {[ "name" := VStr "Mascara" ]} None None.

(** The same request with an empty header and the token in the query. *)
Definition create_mascara_by_query : request :=
  mkRequest {[ "x-admin-token" := "" ]} {[ "token" := VStr "tok-4711" ]} ""
            {[ "name" := VStr "Mascara" ]} None None.



(** GET /api/products/00000000000000000000000a: a well-formed identifier
    that no record has. *)
Definition get_unknown : request :=
  mkRequest ∅ ∅ "00000000000000000000000a" ∅ None None.

(** GET /api/products/xyz *)
Definition get_xyz : request := mkRequest ∅ ∅ "xyz" ∅ None None.

(** POST /api/login { "password": "" } and { "password": "s3cret" } *)
Definition login_empty : request :=
  mkRequest ∅ ∅ "" {[ "password" := VStr "" ]} None None.
Definition login_good : request :=
  mkRequest ∅ ∅ "" {[ "password" := VStr "s3cret" ]} None None.

(** An environment without ADMIN_PASSWORD. *)
Definition no_password_env : gmap string string := {[ "ADMIN_TOKEN" := "tok-4711" ]}.

(** POST /api/products { "name": "Mascara", "price": [] } *)
Definition create_bad_price : request :=
  mkRequest admin_headers ∅ "" {[ "name" := VStr "Mascara"; "price" := VArr [] ]} None None.

(** PUT /api/products/000000000000000000000001 { "name": "Rouge", "price": [] } *)
Definition update_bad_price : request :=
  mkRequest admin_headers ∅ "000000000000000000000001"
            {[ "name" := VStr "Rouge"; "price" := VArr [] ]} None None.

(** PUT /api/products/000000000000000000000001 { "name": "" } *)
Definition unname_lipstick : request :=
  mkRequest admin_headers ∅ "000000000000000000000001" {[ "name" := VStr "" ]} None None.

(** DELETE and GET /api/products/000000000000000000000001 *)
Definition delete_lipstick : request :=
  mkRequest admin_headers ∅ "000000000000000000000001" ∅ None None.
Definition get_lipstick : request :=
  mkRequest ∅ ∅ "000000000000000000000001" ∅ None None.

(** GET /api/products/000000000000000000000002 *)
Definition get_mascara : request :=
  mkRequest ∅ ∅ "000000000000000000000002" ∅ None None.

(** POST /api/upload without a file. *)
Definition upload_nothing : request := mkRequest admin_headers ∅ "" ∅ None None.

(** POST /api/products?token=tok-4711&token=tok-4711: the query parser
    makes an array of the repeated parameter. *)
Definition create_token_twice : request :=
  mkRequest ∅ {[ "token" := VArr [VStr "tok-4711"; VStr "tok-4711"] ]} ""
            {[ "name" := VStr "Mascara" ]} None None.

(** POST /api/products { "name": "Mascara", "_id": 7, "createdAt": 0 } *)
Definition create_mascara_backdated : request :=
  mkRequest admin_headers ∅ ""
            {[ "name" := VStr "Mascara"; "_id" := VNum 7; "createdAt" := VNum 0 ]} None None.

(** The shop while another upload is in flight. *)
Definition busy_shop : world := mkWorld [lipstick] ({[ "tmp/0b7e" ]} ∪ {[ "tmp/4f2a9c" ]}).

(** POST /api/upload with a file, staged by multer as tmp/4f2a9c. *)
Definition upload_photo : request :=
  mkRequest admin_headers ∅ "" ∅ (Some "tmp/4f2a9c") None.

(** ** Values *)

(** Membership in a list that is written out. *)
Ltac in_list := repeat first [apply list_elem_of_here | apply list_elem_of_further].

#[global] Instance mongoose_casts_typed : MongooseTyped.
Proof. split; reflexivity. Qed.

Lemma or_str_js_or (a : option string) (b : string) :
  Some (VStr (or_str a b)) = js_or (VStr <$> a) (Some (VStr b)).
Proof.
  destruct a as [s|]; [|reflexivity].
  unfold js_or, or_str; simpl. by destruct (String.eqb s "").
Qed.

Lemma or_str_nonempty (a : option string) (b : string) : b ≠ "" → or_str a b ≠ "".
Proof.
  intros Hb. unfold or_str. destruct a as [s|]; [|done].
  destruct (String.eqb_spec s ""); done.
Qed.

Lemma strict_eq_str (v : option value) (s : string) :
  strict_eq v (Some (VStr s)) = true ↔ v = Some (VStr s).
Proof.
  split.
  - destruct v as [[]|]; simpl; try discriminate.
    intros ->%String.eqb_eq. reflexivity.
  - intros ->. simpl. apply String.eqb_refl.
Qed.

Lemma strict_eq_get_str (v : option value) (o : gmap string string) (k : string) :
  truthy v = true → strict_eq v (get_str o k) = true ↔ v = get_str o k.
Proof.
  intros Hv. unfold get_str. destruct (o !! k) as [s|]; simpl.
  - apply strict_eq_str.
  - destruct v as [[]|]; simpl in *; split; congruence.
Qed.

Lemma truthy_str (s : string) : truthy (Some (VStr s)) = true ↔ s ≠ "".
Proof.
  simpl. destruct (String.eqb_spec s ""); split; (done || congruence).
Qed.

Lemma world_eta (w : world) : mkWorld (db w) (tmp w) = w.
Proof. by destruct w. Qed.

(** ** The admin gate *)

Section Gate.
Context `{Mongoose}.
Variable env : gmap string string.
Variable amb : Ambient.

Lemma ADMIN_TOKEN_nonempty : ADMIN_TOKEN env ≠ "".
Proof. by apply or_str_nonempty. Qed.

Lemma token_of_candidate (rq : request) : token_of rq = candidate rq.
Proof.
  unfold token_of, candidate, js_or, get_str.
  destruct (headers rq !! "x-admin-token") as [h|]; simpl; [|done].
  destruct (String.eqb_spec h ""); by case_decide.
Qed.

(** The falsy test of the gate is subsumed by the comparison, the admin
    token being a non-empty string. *)
Lemma checkAdmin_pass (rq : request) (w : world) :
  token_of rq = Some (VStr (ADMIN_TOKEN env)) → checkAdmin env rq w = (Next rq, w).
Proof.
  intros Hc. unfold checkAdmin. rewrite Hc.
  rewrite (proj2 (strict_eq_str _ _) eq_refl).
  by rewrite (proj2 (truthy_str _) ADMIN_TOKEN_nonempty).
Qed.

Lemma checkAdmin_reject (rq : request) (w : world) :
  token_of rq ≠ Some (VStr (ADMIN_TOKEN env)) →
  checkAdmin env rq w = (Respond unauthorized, w).
Proof.
  intros Hc. unfold checkAdmin.
  destruct (strict_eq _ _) eqn:E.
  - by apply strict_eq_str in E.
  - by rewrite orb_true_r.
Qed.

Lemma guarded_stack (r : route) :
  guarded r = true → ∃ ms, (stack env amb r).1 = checkAdmin env :: ms.
Proof. destruct r; (discriminate || (intros _; eexists; reflexivity)). Qed.

Lemma serve_authorized (r : route) (rq : request) (w : world) :
  authorized env r rq → serve env amb r rq w = behind_gate env amb r rq w.
Proof.
  intros Ha. destruct (guarded r) eqn:Hg.
  - destruct (guarded_stack r Hg) as [ms Hms].
    unfold serve, behind_gate. rewrite Hms. simpl.
    rewrite checkAdmin_pass; [done|]. rewrite token_of_candidate. by apply Ha.
  - by destruct r.
Qed.

(** C1 (amended): on every product-mutation or upload route the gate takes
    the candidate token from the header when the header is present and not
    empty, and from the query parameter otherwise; when the candidate is
    not exactly the admin token (or there is none) the answer is 401 with
    body [{ ok: false, error: "Unauthorized" }], nothing else runs and the
    state is unchanged; when it is the admin token, the rest of the stack
    runs on the same request and the same state. *)
Theorem gate_guards_mutations (r : route) (rq : request) (w : world) :
  guarded r = true →
  (candidate rq ≠ Some (VStr (ADMIN_TOKEN env)) →
     serve env amb r rq w = (Resolved unauthorized, w)) ∧
  (candidate rq = Some (VStr (ADMIN_TOKEN env)) →
     serve env amb r rq w = behind_gate env amb r rq w).
Proof.
  intros Hg. destruct (guarded_stack r Hg) as [ms Hms].
  unfold serve, behind_gate. rewrite Hms. simpl. split; intros Hc.
  - rewrite checkAdmin_reject; [done|]. by rewrite token_of_candidate.
  - rewrite checkAdmin_pass; [done|]. by rewrite token_of_candidate.
Qed.

(** C8: a header that is present but empty does not take precedence: the
    token the gate tests is then the query parameter, which alone decides
    whether the request passes. *)
Theorem empty_header_consults_query (rq : request) (w : world) :
  headers rq !! "x-admin-token" = Some "" →
  token_of rq = query rq !! "token" ∧
  (query rq !! "token" = Some (VStr (ADMIN_TOKEN env)) →
     checkAdmin env rq w = (Next rq, w)) ∧
  (query rq !! "token" ≠ Some (VStr (ADMIN_TOKEN env)) →
     checkAdmin env rq w = (Respond unauthorized, w)).
Proof.
  intros Hh.
  assert (Ht : token_of rq = query rq !! "token").
  { unfold token_of, get_str. by rewrite Hh. }
  split; [done|]. split; intros Hq.
  - apply checkAdmin_pass. by rewrite Ht.
  - apply checkAdmin_reject. by rewrite Ht.
Qed.


End Gate.

(** ** Login *)

Section Login.
Context `{Mongoose}.
Variable env : gmap string string.
Variable amb : Ambient.

(** C9: a password that is present but empty is answered with 400,
    'Missing password', and not with 401. *)
Theorem login_empty_password (rq : request) (w : world) :
  body rq !! "password" = Some (VStr "") →
  serve env amb POST_login rq w = (Resolved missing_password, w) ∧
  status missing_password = 400%Z.
Proof.
  intros Hp. split; [|done].
  unfold serve; simpl. unfold login. by rewrite Hp.
Qed.

(** C6 (amended): a login whose password is absent, or present but falsy
    (the empty string among others), is answered with 400; a password that
    is truthy and not exactly the configured admin password with 401; a
    truthy password that is exactly the admin password with 200 and the
    configured admin token; no outcome changes the state. *)
Theorem login_outcomes (rq : request) (w : world) :
  let password := body rq !! "password" in
  (password = None → serve env amb POST_login rq w = (Resolved missing_password, w)) ∧
  (truthy password = false → serve env amb POST_login rq w = (Resolved missing_password, w)) ∧
  (truthy password = true → password ≠ ADMIN_PASSWORD env →
     serve env amb POST_login rq w = (Resolved wrong_password, w)) ∧
  (truthy password = true → password = ADMIN_PASSWORD env →
     serve env amb POST_login rq w = (Resolved (logged_in env), w)).
Proof.
  intros password. unfold serve; simpl. unfold login. fold password.
  repeat split.
  - by intros ->.
  - by intros ->.
  - intros Ht Hne. rewrite Ht; simpl.
    destruct (strict_eq password (ADMIN_PASSWORD env)) eqn:E; [|done].
    by apply strict_eq_get_str in E.
  - intros Ht Heq. rewrite Ht; simpl.
    assert (E : strict_eq password (ADMIN_PASSWORD env) = true)
      by (by apply strict_eq_get_str).
    by rewrite E.
Qed.

End Login.

(** ** The collection *)

Lemma find_doc_Some (o : ObjectId) (ds : list Doc) (d : Doc) :
  find_doc o ds = Some d → _id d = o ∧ d ∈ ds.
Proof.
  unfold find_doc. induction ds as [|d' ds IH]; simpl; [done|].
  destruct (N.eqb_spec (_id d') o) as [Heq|Hne].
  - intros [= ->]. split; [done | left].
  - intros Hf. destruct (IH Hf) as [? ?]. split; [done | by right].
Qed.

Lemma find_doc_None (o : ObjectId) (ds : list Doc) :
  find_doc o ds = None ↔ o ∉ _id <$> ds.
Proof.
  unfold find_doc. induction ds as [|d' ds IH]; simpl.
  - split; [intros _; apply not_elem_of_nil | done].
  - rewrite not_elem_of_cons. destruct (N.eqb_spec (_id d') o) as [Heq|Hne].
    + split; [done | intros [? _]; congruence].
    + rewrite IH. split; [intros ?; split; [congruence | done] | tauto].
Qed.

Lemma update_first_absent (o : ObjectId) (f : Doc → Doc) (ds : list Doc) :
  find_doc o ds = None → update_first o f ds = ds.
Proof.
  unfold find_doc. induction ds as [|d' ds IH]; simpl; [done|].
  destruct (N.eqb (_id d') o); [done|]. intros Hf. by rewrite IH.
Qed.

Lemma delete_first_absent (o : ObjectId) (ds : list Doc) :
  find_doc o ds = None → delete_first o ds = ds.
Proof.
  unfold find_doc. induction ds as [|d' ds IH]; simpl; [done|].
  destruct (N.eqb (_id d') o); [done|]. intros Hf. by rewrite IH.
Qed.

Lemma find_doc_update_first (o o' : ObjectId) (f : Doc → Doc) (ds : list Doc) :
  (∀ d, _id d = o → _id (f d) = o) →
  find_doc o' (update_first o f ds) =
    if N.eqb o' o then f <$> find_doc o ds else find_doc o' ds.
Proof.
  intros Hf. unfold find_doc. induction ds as [|d ds IH]; simpl.
  - by destruct (N.eqb o' o).
  - destruct (N.eqb_spec (_id d) o) as [Hd|Hd]; simpl.
    + rewrite (Hf d Hd). destruct (N.eqb_spec o' o) as [->|Ho].
      * by rewrite N.eqb_refl.
      * rewrite Hd. by rewrite (proj2 (N.eqb_neq o o')).
    + rewrite IH. destruct (N.eqb_spec o' o) as [->|Ho].
      * by rewrite (proj2 (N.eqb_neq _ _) Hd).
      * done.
Qed.


(** *** Sorting by creation date *)

Lemma key_le_total (a b : option Z) : key_le a b = true ∨ key_le b a = true.
Proof.
  destruct a as [x|], b as [y|]; simpl; auto.
  destruct (Z.leb_spec x y), (Z.leb_spec y x); auto; lia.
Qed.

Lemma key_le_trans (a b c : option Z) :
  key_le a b = true → key_le b c = true → key_le a c = true.
Proof.
  destruct a as [x|], b as [y|], c as [z|]; simpl; try done.
  rewrite !Z.leb_le. lia.
Qed.

#[global] Instance newer_first_total : Total newer_first.
Proof.
  intros d1 d2. unfold newer_first.
  destruct (key_le_total (createdAt_key d2) (createdAt_key d1)) as [E|E];
    rewrite E; [left | right]; done.
Qed.

#[global] Instance newer_first_trans : Transitive newer_first.
Proof.
  intros d1 d2 d3. unfold newer_first. rewrite !Is_true_true.
  intros H12 H23. by apply (key_le_trans _ (createdAt_key d2)).
Qed.

(** ** Reading products *)

Section Products.
Context `{Mongoose}.
Variable env : gmap string string.
Variable amb : Ambient.

(** C7: whatever the store holds, the list operation answers 200 with all
    the persisted products, most recently created first; on an empty store
    the answer is the empty sequence, with the same success status. *)
Theorem list_newest_first (rq : request) (w : world) :
  ∃ products,
    serve env amb GET_products rq w = (Resolved (mkResponse 200 (JDocs products)), w) ∧
    products ≡ₚ db w ∧
    StronglySorted newer_first products ∧
    (db w = [] → products = []).
Proof.
  exists (merge_sort newer_first (db w)). split; [reflexivity|].
  split; [apply merge_sort_Permutation|].
  split; [apply StronglySorted_merge_sort; apply _|].
  by intros ->.
Qed.

Lemma get_product_run (rq : request) (w : world) :
  get_product rq w =
    match castObjectId (params_id rq) with
    | None => (Resolved server_error, w)
    | Some o =>
        match find_doc o (db w) with
        | None => (Resolved not_found, w)
        | Some d => (Resolved (res_json (JDoc d)), w)
        end
    end.
Proof.
  unfold get_product, try_catch, bind, findById, ret.
  destruct (castObjectId (params_id rq)); [|done].
  by destruct (find_doc _ _).
Qed.

Lemma update_product_run (rq : request) (w : world) :
  update_product amb rq w =
    match castObjectId (params_id rq), castUpdate (body rq) with
    | Some o, Some s =>
        match find_doc o (db w) with
        | None => (Resolved not_found, w)
        | Some d =>
            match updated amb (body rq) s d with
            | Some d' =>
                (Resolved (res_json (JDoc d')),
                 mkWorld (update_first o (λ _, d') (db w)) (tmp w))
            | None => (Resolved server_error, w)
            end
        end
    | _, _ => (Resolved server_error, w)
    end.
Proof.
  unfold update_product, try_catch, bind, findByIdAndUpdate, ret.
  destruct (castObjectId (params_id rq)) as [o|]; [|done].
  destruct (castUpdate (body rq)) as [s|]; [|done].
  destruct (find_doc o (db w)) as [d|]; [|done].
  by destruct (updated amb (body rq) s d).
Qed.

Lemma updated_id (upd s : gmap string value) (d d' : Doc) :
  updated amb upd s d = Some d' → _id d' = _id d.
Proof.
  unfold updated. case_decide.
  - by intros [= <-].
  - destruct (apply_other _ _ _ _); [|done]. by intros [= <-].
Qed.

Lemma delete_product_run (rq : request) (w : world) :
  delete_product rq w =
    match castObjectId (params_id rq) with
    | None => (Resolved server_error, w)
    | Some o =>
        match find_doc o (db w) with
        | None => (Resolved not_found, w)
        | Some d =>
            (Resolved (res_json (JObject {[ "ok" := VBool true ]})),
             mkWorld (delete_first o (db w)) (tmp w))
        end
    end.
Proof.
  unfold delete_product, try_catch, bind, findByIdAndDelete, ret.
  destruct (castObjectId (params_id rq)) as [o|]; [|done].
  destruct (find_doc o (db w)) eqn:Hf; simpl; [done|].
  by rewrite delete_first_absent, world_eta.
Qed.

(** C2 (amended): a get-one request, or an authorized update or delete
    request, whose identifier is one the store accepts and matches no
    persisted record (the field values of an update being ones the store
    accepts) is answered with 404 and leaves the state unchanged; an
    identifier the store rejects as malformed is answered with 500, the
    state unchanged as well. *)
Theorem unknown_id_404_malformed_id_500 (r : route) (rq : request) (w : world) :
  r ∈ [GET_product; PUT_product; DELETE_product] →
  authorized env r rq →
  (∀ o, castObjectId (params_id rq) = Some o →
        find_doc o (db w) = None →
        (r = PUT_product → is_Some (castUpdate (body rq))) →
        serve env amb r rq w = (Resolved not_found, w) ∧ status not_found = 404%Z) ∧
  (castObjectId (params_id rq) = None →
     serve env amb r rq w = (Resolved server_error, w) ∧ status server_error = 500%Z).
Proof.
  intros Hr Ha. rewrite serve_authorized by done. unfold behind_gate.
  repeat (apply elem_of_cons in Hr as [->|Hr]); [..|by apply elem_of_nil in Hr]; simpl.
  - rewrite get_product_run. split.
    + intros o -> -> _. done.
    + intros ->. done.
  - rewrite update_product_run. split.
    + intros o -> -> [s ->]; done.
    + intros ->. done.
  - rewrite delete_product_run. split.
    + intros o -> -> _. done.
    + intros ->. done.
Qed.

End Products.

(** ** Writing products *)

Section Writes.
Context `{Mongoose} `{!MongooseTyped}.
Variable env : gmap string string.
Variable amb : Ambient.

Lemma cast_typed (e : string * SchemaPath) (v : value) :
  e ∈ productSchema → e.1 ∈ product_fields → typed_field e.1 v →
  cast (stype e.2) v = Some v.
Proof.
  intros He Hk Hv.
  repeat (apply elem_of_cons in He as [->|He]); [..|by apply elem_of_nil in He];
    simpl in *; unfold typed_field in Hv; simpl in Hv.
  1-4,6: destruct Hv as [s ->]; apply castString_str.
  - destruct Hv as [n ->]; apply castNumber_num.
  - exfalso. repeat (apply elem_of_cons in Hk as [Hk|Hk]; [discriminate|]).
    by apply elem_of_nil in Hk.
Qed.

Lemma product_fields_paths (k : string) :
  k ∈ product_fields → k ∈ productSchema.*1.
Proof.
  intros Hk. repeat (apply elem_of_cons in Hk as [->|Hk]); [..|by apply elem_of_nil in Hk];
    simpl; in_list.
Qed.

Lemma castUpdate_fold (upd : gmap string value) (sch : list (string * SchemaPath)) :
  (∀ e v, e ∈ sch → upd !! e.1 = Some v → cast (stype e.2) v = Some v) →
  foldr (λ (e : string * SchemaPath) acc,
           match upd !! e.1 with
           | None => acc
           | Some v =>
               match acc, cast (stype e.2) v with
               | Some s, Some v' => Some (<[e.1 := v']> s)
               | _, _ => None
               end
           end) (Some ∅) sch
  = Some (filter (λ kv, kv.1 ∈ sch.*1) upd).
Proof.
  induction sch as [|e sch IH]; intros Hc; simpl.
  - f_equal. symmetry. apply map_empty. intros k.
    apply map_lookup_filter_None. right. intros v _. simpl. apply not_elem_of_nil.
  - rewrite IH by (intros e' v He'; apply Hc; by right).
    destruct (upd !! e.1) as [v|] eqn:Hv.
    + rewrite (Hc e v) by (done || left). f_equal.
      apply map_eq. intros k. apply option_eq. intros x.
      destruct (decide (k = e.1)) as [->|Hk].
      * rewrite lookup_insert_eq, map_lookup_filter_Some. simpl.
        rewrite Hv. split; [intros [= ->]; split; [done | left] | by intros [[= ->] _]].
      * rewrite lookup_insert_ne by done. rewrite !map_lookup_filter_Some. simpl.
        rewrite elem_of_cons.
        split; [intros [? ?]; auto | intros [? [?|?]]; [congruence | auto]].
    + f_equal. apply map_filter_ext. intros k x Hkx. simpl.
      rewrite elem_of_cons. split; [by right|]. intros [->|?]; [congruence | done].
Qed.

Lemma other_part_partial_product (b : gmap string value) :
  partial_product b → other_part b = ∅.
Proof.
  intros Hb. apply map_empty. intros k. apply map_lookup_filter_None. right.
  intros v Hv. simpl. intros Hk. apply Hk, product_fields_paths. by apply (Hb k v).
Qed.

Lemma castPaths_partial_product (b : gmap string value) :
  partial_product b → castPaths b = Some b.
Proof.
  intros Hb. unfold castPaths. rewrite castUpdate_fold.
  - f_equal. apply map_filter_id. intros k v Hkv. simpl.
    apply product_fields_paths. by apply (Hb k v).
  - intros e v He Hv. destruct (Hb _ _ Hv). by apply cast_typed.
Qed.

Lemma castUpdate_partial_product (b : gmap string value) :
  partial_product b → castUpdate b = Some b.
Proof.
  intros Hb. unfold castUpdate.
  rewrite decide_True by (by apply other_part_partial_product).
  by apply castPaths_partial_product.
Qed.

Lemma updated_partial_product (b s : gmap string value) (d : Doc) :
  partial_product b → updated amb b s d = Some (set_fields s d).
Proof.
  intros Hb. unfold updated.
  by rewrite decide_True by (by apply other_part_partial_product).
Qed.

Lemma new_Product_fold (obj : gmap string value) (sch : list (string * SchemaPath))
    (m0 : Model) :
  (∀ e v, e ∈ sch → obj !! e.1 = Some v → cast (stype e.2) v = Some v) →
  foldr (init_path amb obj) m0 sch =
    mkModel (mkDoc (_id (doc m0))
               (filter (λ kv, kv.1 ∈ sch.*1) obj ∪ (schema_defaults amb sch ∪ fields (doc m0))))
            (cast_errors m0).
Proof.
  induction sch as [|[p sp] sch IH]; intros Hc; simpl.
  - destruct m0 as [[i f] errs]; simpl. do 2 f_equal.
    rewrite (left_id_L ∅ (∪)).
    replace (filter _ obj) with (∅ : gmap string value); [by rewrite (left_id_L ∅ (∪))|].
    symmetry. apply map_empty. intros k.
    apply map_lookup_filter_None. right. intros v _. apply not_elem_of_nil.
  - rewrite IH by (intros e' v He'; apply Hc; by right).
    unfold init_path, set_field; simpl.
    destruct (obj !! p) as [v|] eqn:Hv.
    + assert (E : cast (stype sp) v = Some v) by (apply (Hc (p, sp) v); done || left).
      rewrite E. simpl. do 2 f_equal.
      apply map_eq. intros k. destruct (decide (k = p)) as [->|Hk].
      * rewrite lookup_insert_eq. symmetry. apply lookup_union_Some_l.
        apply map_lookup_filter_Some. split; [done | left].
      * rewrite lookup_insert_ne by done. rewrite !lookup_union. f_equal.
        -- apply option_eq. intros x. rewrite !map_lookup_filter_Some. simpl.
           rewrite elem_of_cons.
           split; [intros [? ?]; auto | intros [? [?|?]]; [congruence | auto]].
        -- f_equal. destruct (default_value amb (default sp)); [|done].
           by rewrite lookup_insert_ne.
    + match goal with
      | |- context [filter ?P obj ∪ (match _ with Some _ => _ | None => _ end ∪ _)] =>
          assert (Hfil : filter P obj = filter (λ kv : string * value, kv.1 ∈ sch.*1) obj)
      end.
      { apply map_filter_ext. intros k x Hkx. simpl. rewrite elem_of_cons.
        split; [intros [->|?]; [congruence | done] | by right]. }
      rewrite Hfil.
      destruct (default_value amb (default sp)) as [dv|]; simpl; [|done].
      do 2 f_equal. apply map_eq. intros k. destruct (decide (k = p)) as [->|Hk].
      * rewrite lookup_insert_eq. symmetry.
        rewrite lookup_union_r.
        -- apply lookup_union_Some_l. apply lookup_insert_eq.
        -- apply map_lookup_filter_None. left. done.
      * rewrite lookup_insert_ne by done. rewrite !lookup_union.
        by rewrite lookup_insert_ne.
Qed.


Lemma pick_lookup (ks : list string) (o : gmap string value) (k : string) :
  pick ks o !! k = if decide (k ∈ ks) then o !! k else None.
Proof.
  unfold pick. apply option_eq. intros v. rewrite map_lookup_filter_Some. simpl.
  case_decide; split; try tauto. by intros [= ].
Qed.

Lemma createdAt_not_product_field : "createdAt" ∉ product_fields.
Proof.
  intros Hk. repeat (apply elem_of_cons in Hk as [Hk|Hk]; [discriminate|]).
  by apply elem_of_nil in Hk.
Qed.

Lemma schema_defaults_product :
  schema_defaults amb productSchema
  = {[ "price" := VNum 0; "createdAt" := VDate (Date_now amb) ]}.
Proof. reflexivity. Qed.

Lemma valid_unfold (m : Model) :
  valid m = bool_decide (cast_errors m = []) && required_ok (fields (doc m) !! "name").
Proof. unfold valid. simpl. by rewrite !andb_true_r. Qed.

(** The document [new Product] builds from a typed body. *)
Lemma new_Product_typed (b : gmap string value) :
  typed_body b →
  new_Product amb (pick product_fields b) =
    mkModel (mkDoc (new_ObjectId amb)
               (pick product_fields b
                ∪ {[ "price" := VNum 0; "createdAt" := VDate (Date_now amb) ]})) [].
Proof.
  intros Hb. unfold new_Product. rewrite new_Product_fold.
  - simpl doc. simpl cast_errors. simpl _id. simpl fields.
    rewrite schema_defaults_product, (right_id_L ∅ (∪)). do 3 f_equal.
    apply map_filter_id. intros k v Hkv. simpl.
    rewrite pick_lookup in Hkv. case_decide; [|done]. by apply product_fields_paths.
  - intros e v He Hv. rewrite pick_lookup in Hv. case_decide; [|done].
    apply cast_typed; [done..|]. by apply Hb.
Qed.

Lemma version_not_product_field : "__v" ∉ product_fields.
Proof.
  intros Hk. repeat (apply elem_of_cons in Hk as [Hk|Hk]; [discriminate|]).
  by apply elem_of_nil in Hk.
Qed.

(** C4 (amended): an authorized create whose name is absent or empty is
    answered with 400 and the state is unchanged; an authorized create
    whose name is a non-empty text and whose other submitted product fields
    have the type of their path, given an identifier that is not in use,
    appends one record to the store and answers 200 with that record: the
    submitted product fields as they were sent, a price of 0 when none was
    sent, the creation date set to the current time, the version key set
    to 0, and nothing else. *)
Theorem create_persists_or_rejects (rq : request) (w : world) :
  authorized env POST_products rq →
  (body rq !! "name" = None ∨ body rq !! "name" = Some (VStr "") →
     serve env amb POST_products rq w
     = (Resolved (mkResponse 400 (error_body "Name is required")), w)) ∧
  (∀ s, body rq !! "name" = Some (VStr s) → s ≠ "" →
        typed_body (body rq) →
        new_ObjectId amb ∉ _id <$> db w →
        ∃ d,
          serve env amb POST_products rq w
          = (Resolved (mkResponse 200 (JDoc d)), mkWorld (db w ++ [d]) (tmp w)) ∧
          _id d = new_ObjectId amb ∧
          (∀ k, k ∈ product_fields → k ≠ "price" → fields d !! k = body rq !! k) ∧
          fields d !! "price" = Some (from_option id (VNum 0) (body rq !! "price")) ∧
          fields d !! "createdAt" = Some (VDate (Date_now amb)) ∧
          fields d !! "__v" = Some (VNum 0) ∧
          (∀ k, k ∉ product_fields → k ≠ "createdAt" → k ≠ "__v" → fields d !! k = None)).
Proof.
  intros Ha. rewrite serve_authorized by done. unfold behind_gate; simpl.
  unfold create_product, try_catch. split.
  - intros [Hn|Hn]; by rewrite Hn.
  - intros s Hn Hs Hb Hfresh.
    assert (Hs' : negb (String.eqb s "") = true) by (by apply truthy_str).
    rewrite Hn. cbn [truthy]. rewrite Hs'. cbn [negb].
    change ["name"; "brand"; "size"; "description"; "price"; "imageUrl"]
      with product_fields.
    rewrite (new_Product_typed _ Hb).
    set (d0 := mkDoc (new_ObjectId amb) _).
    assert (Hname : fields d0 !! "name" = Some (VStr s)).
    { simpl. apply lookup_union_Some_l. rewrite pick_lookup.
      rewrite decide_True; [done | unfold product_fields; in_list]. }
    exists (set_version d0). split; [|split; [done|]].
    + unfold bind, save, ret. rewrite valid_unfold. cbn [doc cast_errors].
      rewrite Hname. cbn [required_ok]. rewrite Hs'.
      rewrite bool_decide_eq_true_2 by done. cbn [andb negb].
      rewrite bool_decide_eq_false_2 by done. done.
    + assert (Hver : ∀ k, k ≠ "__v" → fields (set_version d0) !! k = fields d0 !! k).
      { intros k Hk. unfold set_version. cbn [fields]. by rewrite lookup_insert_ne. }
      assert (Hpick : ∀ k, k ∈ product_fields →
                fields (set_version d0) !! k =
                  match body rq !! k with
                  | Some v => Some v
                  | None => ({[ "price" := VNum 0; "createdAt" := VDate (Date_now amb) ]}
                               : gmap string value) !! k
                  end).
      { intros k Hk.
        rewrite Hver by (intros ->; by apply version_not_product_field).
        simpl. destruct (body rq !! k) as [v|] eqn:E.
        - apply lookup_union_Some_l. by rewrite pick_lookup, decide_True.
        - apply lookup_union_r. by rewrite pick_lookup, decide_True. }
      assert (Hrest : ∀ k, k ∉ product_fields → k ≠ "__v" →
                fields (set_version d0) !! k =
                  ({[ "price" := VNum 0; "createdAt" := VDate (Date_now amb) ]}
                     : gmap string value) !! k).
      { intros k Hk Hv. rewrite Hver by done. simpl.
        apply lookup_union_r. by rewrite pick_lookup, decide_False. }
      split; [|split; [|split; [|split]]].
      * intros k Hk Hp. rewrite Hpick by done.
        destruct (body rq !! k) as [v|]; [done|].
        rewrite lookup_insert_ne by done. rewrite lookup_singleton_ne; [done|].
        intros <-. by apply createdAt_not_product_field.
      * rewrite Hpick by (unfold product_fields; in_list). by destruct (body rq !! "price").
      * rewrite Hrest by (apply createdAt_not_product_field || done). done.
      * unfold set_version. cbn [fields]. apply lookup_insert_eq.
      * intros k Hk Hc Hv. rewrite Hrest by done.
        rewrite lookup_insert_ne by (intros <-; apply Hk; unfold product_fields; in_list).
        by rewrite lookup_singleton_ne.
Qed.

End Writes.

(** ** Upload *)

Section Upload.
Context `{Mongoose}.
Variable env : gmap string string.
Variable amb : Ambient.

Lemma upload_run (rq : request) (w : world) (p : string) :
  authorized env POST_upload rq →
  attachment rq = Some p →
  serve env amb POST_upload rq w =
    match uploader_upload amb p "jubilate_products" with
    | Resolved result =>
        (Resolved (mkResponse 200 (JObject {[ "ok" := VBool true;
                                              "url" := VStr result.1;
                                              "public_id" := VStr result.2 ]})),
         mkWorld (db w) (({[ p ]} ∪ tmp w) ∖ {[ p ]}))
    | Rejected _ =>
        (Resolved (mkResponse 500 (error_body "Upload failed")),
         mkWorld (db w) ({[ p ]} ∪ tmp w))
    end.
Proof.
  intros Ha Hp. rewrite serve_authorized by done. unfold behind_gate; simpl.
  unfold upload_single. rewrite Hp.
  unfold upload_image, try_catch, bind, cloudinary_upload, unlinkSync, ret; simpl.
  destruct (uploader_upload amb p "jubilate_products") as [result|e]; [|done].
  rewrite bool_decide_eq_true_2 by (by apply elem_of_union_l, elem_of_singleton). done.
Qed.

(** After an upload that the media host accepts the staged file is gone;
    after one that it refuses the staged file is still there. *)
Lemma upload_staged_file (rq : request) (w : world) (p : string) :
  authorized env POST_upload rq →
  attachment rq = Some p →
  match uploader_upload amb p "jubilate_products" with
  | Resolved _ => p ∉ tmp (serve env amb POST_upload rq w).2
  | Rejected _ => p ∈ tmp (serve env amb POST_upload rq w).2
  end.
Proof.
  intros Ha Hp. rewrite (upload_run rq w p Ha Hp).
  destruct (uploader_upload amb p "jubilate_products"); simpl.
  - rewrite elem_of_difference, elem_of_singleton. tauto.
  - by apply elem_of_union_l, elem_of_singleton.
Qed.

End Upload.

(** ** The theorems at work on the sample shop *)

Lemma authorized_by_header (r : route) (rq : request) :
  headers rq !! "x-admin-token" = Some "tok-4711" → authorized shop_env r rq.
Proof. intros Hh _. unfold candidate. by rewrite Hh. Qed.


Lemma mascara_typed : typed_body (body create_mascara).
Proof.
  intros k v _ Hkv.
  change (body create_mascara) with ({[ "name" := VStr "Mascara" ]} : gmap string value) in Hkv.
  apply lookup_singleton_Some in Hkv as [<- <-]. by exists "Mascara".
Qed.

(** The gate on the sample shop: the create request that carries the admin
    token in its header reaches the create handler. *)
Lemma gate_guards_mutations_witness :
  guarded POST_products = true ∧
  serve shop_env host_up POST_products create_mascara shop
  = behind_gate shop_env host_up POST_products create_mascara shop.
Proof.
  split; [reflexivity|].
  apply (gate_guards_mutations shop_env host_up POST_products create_mascara shop);
    reflexivity.
Defined.

(** C1, as stated, fails: the header is present (and empty) and the token
    is in the query; going by presence the candidate is the empty header,
    which is not the admin token, yet the request is not answered with 401:
    the create handler runs and a record is persisted. *)
Lemma gate_presence_counterexample :
  headers create_mascara_by_query !! "x-admin-token" = Some "" ∧
  candidate_by_presence create_mascara_by_query = Some (VStr "") ∧
  candidate_by_presence create_mascara_by_query ≠ Some (VStr (ADMIN_TOKEN shop_env)) ∧
  serve shop_env host_up POST_products create_mascara_by_query shop
  = (Resolved (mkResponse 200 (JDoc mascara)), mkWorld [lipstick; mascara] ∅).
Proof.
  split; [reflexivity|]. split; [reflexivity|]. split; [vm_compute; congruence|].
  vm_compute. reflexivity.
Qed.

Lemma empty_header_consults_query_witness :
  headers create_mascara_by_query !! "x-admin-token" = Some "" ∧
  token_of create_mascara_by_query = Some (VStr "tok-4711") ∧
  checkAdmin shop_env create_mascara_by_query shop = (Next create_mascara_by_query, shop).
Proof.
  assert (Hh : headers create_mascara_by_query !! "x-admin-token" = Some "") by reflexivity.
  split; [exact Hh|].
  destruct (empty_header_consults_query shop_env create_mascara_by_query shop Hh)
    as (Ht & Hpass & _).
  split; [exact Ht | apply Hpass; reflexivity].
Defined.


Lemma login_empty_password_witness :
  body login_empty !! "password" = Some (VStr "") ∧
  serve shop_env host_up POST_login login_empty shop = (Resolved missing_password, shop).
Proof.
  split; [reflexivity|].
  apply (login_empty_password shop_env host_up login_empty shop). reflexivity.
Defined.

Lemma login_outcomes_witness :
  serve shop_env host_up POST_login login_good shop = (Resolved (logged_in shop_env), shop).
Proof.
  apply (login_outcomes shop_env host_up login_good shop); reflexivity.
Defined.

(** C6, as stated, fails: the password field is present and is not the
    admin password, and the answer is 400, not 401. *)
Lemma login_present_password_counterexample :
  body login_empty !! "password" = Some (VStr "") ∧
  body login_empty !! "password" ≠ ADMIN_PASSWORD shop_env ∧
  serve shop_env host_up POST_login login_empty shop = (Resolved missing_password, shop) ∧
  status missing_password = 400%Z.
Proof.
  split; [reflexivity|]. split; [vm_compute; congruence|].
  split; vm_compute; reflexivity.
Qed.

Lemma unknown_id_404_malformed_id_500_witness :
  GET_product ∈ [GET_product; PUT_product; DELETE_product] ∧
  authorized shop_env GET_product get_unknown ∧
  serve shop_env host_up GET_product get_unknown shop = (Resolved not_found, shop) ∧
  serve shop_env host_up GET_product get_xyz shop = (Resolved server_error, shop).
Proof.
  assert (Hin : GET_product ∈ [GET_product; PUT_product; DELETE_product]) by in_list.
  assert (Ha : ∀ rq, authorized shop_env GET_product rq) by (intros rq; discriminate).
  split; [exact Hin|]. split; [exact (Ha _)|]. split.
  - apply (proj1 (unknown_id_404_malformed_id_500 shop_env host_up GET_product get_unknown
                    shop Hin (Ha _)) 10%N); [reflexivity | reflexivity | discriminate].
  - apply (proj2 (unknown_id_404_malformed_id_500 shop_env host_up GET_product get_xyz
                    shop Hin (Ha _))). reflexivity.
Defined.

(** C2, as stated, fails: xyz is an identifier that the store rejects, no
    record matches it, and the answer is 500, not 404. *)
Lemma malformed_id_counterexample :
  castObjectId (params_id get_xyz) = None ∧
  serve shop_env host_up GET_product get_xyz shop
  = (Resolved (mkResponse 500 (error_body "Server error")), shop).
Proof. split; vm_compute; reflexivity. Qed.



(** C4, as stated, fails: an authorized create with a non-empty name whose
    price, an array, cannot be cast to a number is answered with 500 and
    no record is persisted, where the claim has a new record persisted. *)
Lemma create_uncastable_counterexample :
  authorized shop_env POST_products create_bad_price ∧
  body create_bad_price !! "name" = Some (VStr "Mascara") ∧
  serve shop_env host_up POST_products create_bad_price shop
  = (Resolved (mkResponse 500 (error_body "Server error")), shop).
Proof.
  split; [by apply authorized_by_header|]. split; [reflexivity|].
  vm_compute. reflexivity.
Qed.

Lemma create_persists_or_rejects_witness :
  authorized shop_env POST_products create_mascara ∧
  typed_body (body create_mascara) ∧
  (new_ObjectId host_up ∉ (_id <$> db shop)) ∧
  ∃ d,
    serve shop_env host_up POST_products create_mascara shop
    = (Resolved (mkResponse 200 (JDoc d)), mkWorld (db shop ++ [d]) (tmp shop)) ∧
    fields d !! "price" = Some (VNum 0) ∧
    fields d !! "__v" = Some (VNum 0).
Proof.
  assert (Ha : authorized shop_env POST_products create_mascara)
    by (by apply authorized_by_header).
  assert (Hfresh : new_ObjectId host_up ∉ _id <$> db shop).
  { intros Hin. apply elem_of_cons in Hin as [E|E]; [discriminate E|].
    by apply elem_of_nil in E. }
  split; [exact Ha|]. split; [exact mascara_typed|]. split; [exact Hfresh|].
  destruct (proj2 (create_persists_or_rejects shop_env host_up create_mascara shop Ha)
              "Mascara" eq_refl ltac:(discriminate) mascara_typed Hfresh)
    as (d & Hrun & _ & _ & Hprice & _ & Hversion & _).
  exists d. split; [exact Hrun|]. split; [exact Hprice | exact Hversion].
Defined.

(** C5, on the failing input: an authorized upload with an attached file,
    staged as tmp/4f2a9c, that the media host refuses.  The answer is 500
    and the staged file is still under tmp/ afterwards, where the claim
    has it removed on the failure outcome as well. *)
Theorem upload_failure_leaves_staged_file :
  serve shop_env host_down POST_upload upload_photo shop
  = (Resolved (mkResponse 500 (error_body "Upload failed")),
     mkWorld [lipstick] {[ "tmp/4f2a9c" ]}) ∧
  "tmp/4f2a9c" ∈ tmp (serve shop_env host_down POST_upload upload_photo shop).2.
Proof.
  split.
  - vm_compute. reflexivity.
  - apply (upload_staged_file shop_env host_down upload_photo shop "tmp/4f2a9c");
      [by apply authorized_by_header | reflexivity].
Qed.

(** The same upload when the media host accepts it: the staged file is
    removed. *)
Example upload_success_removes_staged_file :
  serve shop_env host_up POST_upload upload_photo shop
  = (Resolved (mkResponse 200
       (JObject {[ "ok" := VBool true;
                   "url" := VStr "https://res.cloudinary.com/demo/jubilate_products/a1.png";
                   "public_id" := VStr "jubilate_products/a1" ]})),
     shop).
Proof. vm_compute. reflexivity. Qed.

(** Listing a store of two products: the later one comes first. *)
Example list_two_products :
  serve shop_env host_up GET_products empty_request (mkWorld [lipstick; mascara] ∅)
  = (Resolved (mkResponse 200 (JDocs [mascara; lipstick])), mkWorld [lipstick; mascara] ∅).
Proof. vm_compute. reflexivity. Qed.

(** ** Further properties of the handlers *)

Section Handlers.
Context `{Mongoose}.
Variable env : gmap string string.
Variable amb : Ambient.

(** A request either stops at the gate or goes on behind it. *)
Lemma serve_cases (r : route) (rq : request) (w : world) :
  (guarded r = true ∧ serve env amb r rq w = (Resolved unauthorized, w))
  ∨ serve env amb r rq w = behind_gate env amb r rq w.
Proof.
  destruct r; try (right; reflexivity);
    unfold serve, behind_gate; simpl; unfold checkAdmin;
    destruct (negb _ || negb _); auto.
Qed.

Lemma init_path_id (obj : gmap string value) (e : string * SchemaPath) (m : Model) :
  _id (doc (init_path amb obj e m)) = _id (doc m).
Proof.
  destruct e as [p sp]. unfold init_path.
  destruct (obj !! p) as [v|].
  - by destruct (cast (stype sp) v).
  - by destruct (default_value amb (default sp)).
Qed.

Lemma new_Product_id (obj : gmap string value) :
  _id (doc (new_Product amb obj)) = new_ObjectId amb.
Proof.
  unfold new_Product. induction productSchema as [|e sch IH]; simpl; [done|].
  by rewrite init_path_id.
Qed.

Lemma create_product_run (rq : request) (w : world) :
  create_product amb rq w =
    if negb (truthy (body rq !! "name"))
    then (Resolved (mkResponse 400 (error_body "Name is required")), w)
    else
      let prod := new_Product amb (pick product_fields (body rq)) in
      if negb (valid prod) then (Resolved server_error, w)
      else if bool_decide (new_ObjectId amb ∈ ids w) then (Resolved server_error, w)
      else (Resolved (mkResponse 200 (JDoc (set_version (doc prod)))),
            mkWorld (db w ++ [set_version (doc prod)]) (tmp w)).
Proof.
  unfold create_product, try_catch.
  destruct (negb (truthy (body rq !! "name"))); [done|].
  change ["name"; "brand"; "size"; "description"; "price"; "imageUrl"] with product_fields.
  unfold bind, save, ret, ids. rewrite new_Product_id.
  destruct (negb (valid _)); [reflexivity|].
  destruct (bool_decide _); reflexivity.
Qed.

Lemma upload_image_run (rq : request) (w : world) :
  upload_image amb rq w =
    match file rq with
    | None => (Resolved (mkResponse 400 (error_body "No file uploaded")), w)
    | Some p =>
        match uploader_upload amb p "jubilate_products" with
        | Resolved result =>
            if bool_decide (p ∈ tmp w)
            then (Resolved (mkResponse 200 (JObject {[ "ok" := VBool true;
                                                       "url" := VStr result.1;
                                                       "public_id" := VStr result.2 ]})),
                  mkWorld (db w) (tmp w ∖ {[ p ]}))
            else (Resolved (mkResponse 500 (error_body "Upload failed")), w)
        | Rejected _ => (Resolved (mkResponse 500 (error_body "Upload failed")), w)
        end
    end.
Proof.
  unfold upload_image, try_catch, bind, cloudinary_upload, unlinkSync, ret.
  destruct (file rq) as [p|]; [|done].
  destruct (uploader_upload amb p "jubilate_products"); [|reflexivity].
  destruct (bool_decide _); reflexivity.
Qed.

Lemma behind_gate_upload (rq : request) (w : world) :
  behind_gate env amb POST_upload rq w =
    match attachment rq with
    | Some p =>
        upload_image amb
          (mkRequest (headers rq) (query rq) (params_id rq) (body rq) (attachment rq) (Some p))
          (mkWorld (db w) ({[ p ]} ∪ tmp w))
    | None => upload_image amb rq w
    end.
Proof. unfold behind_gate; simpl. unfold upload_single. by destruct (attachment rq). Qed.

Lemma fmap_id_update_first (o : ObjectId) (f : Doc → Doc) (ds : list Doc) :
  (∀ d, _id d = o → _id (f d) = o) → _id <$> update_first o f ds = _id <$> ds.
Proof.
  intros Hf. induction ds as [|d ds IH]; [done|]. cbn [update_first].
  destruct (N.eqb_spec (_id d) o) as [Hd|Hd]; rewrite !fmap_cons;
    [by rewrite (Hf d Hd), Hd | by rewrite IH].
Qed.

Lemma delete_first_sublist (o : ObjectId) (ds : list Doc) :
  sublist (delete_first o ds) ds.
Proof.
  induction ds as [|d ds IH]; simpl; [done|].
  destruct (N.eqb (_id d) o); [by apply sublist_cons | by apply sublist_skip].
Qed.

End Handlers.

Section Footprint.
Context `{Mongoose}.
Variable env : gmap string string.
Variable amb : Ambient.

Lemma login_run (rq : request) (w : world) :
  login env rq w = (Resolved missing_password, w)
  ∨ login env rq w = (Resolved wrong_password, w)
  ∨ (truthy (body rq !! "password") = true
     ∧ body rq !! "password" = ADMIN_PASSWORD env
     ∧ login env rq w = (Resolved (logged_in env), w)).
Proof.
  unfold login.
  destruct (truthy (body rq !! "password")) eqn:Ht; [|by left].
  destruct (strict_eq (body rq !! "password") (ADMIN_PASSWORD env)) eqn:E; [|by right; left].
  right; right. split; [done|]. split; [|done]. by apply strict_eq_get_str in E.
Qed.

(** X2: every route answers every request: no rejection of a store call, of
    the media host or of the file system escapes a handler, and the status
    is one of 200, 400, 401, 404 and 500. *)
Theorem every_request_is_answered (r : route) (rq : request) (w : world) :
  ∃ resp w', serve env amb r rq w = (Resolved resp, w') ∧ status resp ∈ statuses.
Proof.
  destruct (serve_cases env amb r rq w) as [[_ ->] | ->].
  { eexists _, _. split; [done|]. unfold statuses; simpl; in_list. }
  destruct r.
  - unfold behind_gate; simpl.
    destruct (login_run rq w) as [-> | [-> | (_ & _ & ->)]];
      eexists _, _; (split; [done|]); unfold statuses; simpl; in_list.
  - eexists _, _. split; [reflexivity|]. unfold statuses; simpl; in_list.
  - unfold behind_gate; simpl. rewrite get_product_run.
    destruct (castObjectId (params_id rq)); [destruct (find_doc _ _)|];
      eexists _, _; (split; [done|]); unfold statuses; simpl; in_list.
  - unfold behind_gate; simpl. rewrite create_product_run.
    destruct (negb (truthy _)); [|cbv zeta; destruct (negb (valid _));
      [|destruct (bool_decide _)]];
      eexists _, _; (split; [done|]); unfold statuses; simpl; in_list.
  - unfold behind_gate; simpl. rewrite update_product_run.
    destruct (castObjectId (params_id rq)); [destruct (castUpdate (body rq));
      [destruct (find_doc _ _); [destruct (updated _ _ _ _)|]|]|];
      eexists _, _; (split; [done|]); unfold statuses; simpl; in_list.
  - unfold behind_gate; simpl. rewrite delete_product_run.
    destruct (castObjectId (params_id rq)); [destruct (find_doc _ _)|];
      eexists _, _; (split; [done|]); unfold statuses; simpl; in_list.
  - rewrite behind_gate_upload.
    destruct (attachment rq); rewrite upload_image_run; cbn [file tmp db];
      repeat match goal with
             | |- context [match ?x with _ => _ end] => destruct x
             end;
      eexists _, _; (split; [done|]); unfold statuses; simpl; in_list.
Qed.

(** What a request may do to the state, route by route. *)
Lemma serve_state_cases (r : route) (rq : request) (w : world) :
  let w' := (serve env amb r rq w).2 in
  w' = w
  ∨ (r = POST_products ∧ tmp w' = tmp w ∧
     ∃ d, _id d = new_ObjectId amb ∧ (new_ObjectId amb ∉ ids w) ∧ db w' = (db w ++ [d])%list)
  ∨ (r = PUT_product ∧ tmp w' = tmp w ∧
     ∃ o f, (∀ d, _id d = o → _id (f d) = o) ∧ db w' = update_first o f (db w))
  ∨ (r = DELETE_product ∧ tmp w' = tmp w ∧ ∃ o, db w' = delete_first o (db w))
  ∨ (r = POST_upload ∧ db w' = db w).
Proof.
  intros w'. subst w'.
  destruct (serve_cases env amb r rq w) as [[_ ->] | ->]; [by left|].
  destruct r.
  - left. unfold behind_gate; simpl.
    by destruct (login_run rq w) as [-> | [-> | (_ & _ & ->)]].
  - by left.
  - left. unfold behind_gate; simpl. rewrite get_product_run.
    destruct (castObjectId (params_id rq)); [|done]. by destruct (find_doc _ _).
  - unfold behind_gate; simpl. rewrite create_product_run.
    destruct (negb (truthy _)); [by left|]. cbv zeta.
    destruct (negb (valid _)); [by left|].
    destruct (bool_decide _) eqn:E; [by left|].
    right; left. split; [done|]. split; [done|].
    exists (set_version (doc (new_Product amb (pick product_fields (body rq))))).
    split; [exact (new_Product_id amb _)|]. split; [|done].
    by apply bool_decide_eq_false in E.
  - unfold behind_gate; simpl. rewrite update_product_run.
    destruct (castObjectId (params_id rq)) as [o|]; [|by left].
    destruct (castUpdate (body rq)) as [s|]; [|by left].
    destruct (find_doc _ _) as [d|] eqn:Hf; [|by left].
    destruct (updated _ _ _ _) as [d'|] eqn:Hu; [|by left].
    right; right; left. split; [done|]. split; [done|].
    exists o, (λ _, d'). split; [|done]. intros _ _.
    rewrite (updated_id amb _ _ _ _ Hu). by destruct (find_doc_Some _ _ _ Hf).
  - unfold behind_gate; simpl. rewrite delete_product_run.
    destruct (castObjectId (params_id rq)) as [o|]; [|by left].
    destruct (find_doc _ _); [|by left].
    right; right; right; left. split; [done|]. split; [done|]. by exists o.
  - right; right; right; right. split; [done|].
    rewrite behind_gate_upload.
    destruct (attachment rq); rewrite upload_image_run; cbn [file tmp db];
      repeat match goal with
             | |- context [match ?x with _ => _ end] => destruct x
             end; done.
Qed.

Lemma delete_first_ids_sublist (o : ObjectId) (ds : list Doc) :
  sublist (_id <$> delete_first o ds) (_id <$> ds).
Proof.
  induction ds as [|d ds IH]; [done|]. cbn [delete_first].
  destruct (N.eqb (_id d) o); rewrite !fmap_cons;
    [by apply sublist_cons | by apply sublist_skip].
Qed.

Lemma length_delete_first (o : ObjectId) (ds : list Doc) :
  (length ds ≤ S (length (delete_first o ds)))%nat.
Proof.
  induction ds as [|d ds IH]; simpl; [lia|].
  destruct (N.eqb (_id d) o); simpl; lia.
Qed.

(** X1: what each route may do to the state, whatever the request and the
    answer.  Login, list and get-one change nothing.  Create leaves the
    files alone and either leaves the store as it is or appends one
    record.  Update leaves the files alone and keeps the identifiers of
    the store, in their order.  Delete leaves the files alone and removes
    at most one record, the others staying in their order.  Upload never
    touches the store. *)
Theorem footprint (r : route) (rq : request) (w : world) :
  let w' := (serve env amb r rq w).2 in
  match r with
  | POST_login | GET_products | GET_product => w' = w
  | POST_products => tmp w' = tmp w ∧ (db w' = db w ∨ ∃ d, db w' = (db w ++ [d])%list)
  | PUT_product => tmp w' = tmp w ∧ ids w' = ids w
  | DELETE_product =>
      tmp w' = tmp w ∧ sublist (db w') (db w) ∧ (length (db w) ≤ S (length (db w')))%nat
  | POST_upload => db w' = db w
  end.
Proof.
  intros w'.
  destruct (serve_state_cases r rq w)
    as [E | [(-> & Ht & d & _ & _ & E) | [(-> & Ht & o & f & Hf & E)
         | [(-> & Ht & o & E) | (-> & E)]]]]; fold w' in E; try fold w' in Ht.
  - rewrite E. destruct r; try done.
    + split; [done | by left].
    + split; [done|]. split; [done | lia].
  - split; [done|]. right. by exists d.
  - split; [done|]. unfold ids. rewrite E. by apply fmap_id_update_first.
  - split; [done|]. rewrite E. split; [apply delete_first_sublist | apply length_delete_first].
  - done.
Qed.

(** X3: identifiers stay unique: when no two records of the store share an
    identifier, no request to any route makes two records share one. *)
Theorem ids_stay_unique (r : route) (rq : request) (w : world) :
  NoDup (ids w) → NoDup (ids (serve env amb r rq w).2).
Proof.
  intros Hnd.
  destruct (serve_state_cases r rq w)
    as [E | [(_ & _ & d & Hd & Hfresh & E) | [(_ & _ & o & f & Hf & E)
         | [(_ & _ & o & E) | (_ & E)]]]]; cbv zeta in E; unfold ids in *; rewrite E.
  - done.
  - rewrite fmap_app. apply NoDup_app. split; [done|]. split.
    + intros x Hx [->|Hin%elem_of_nil]%elem_of_cons; [|done]. by rewrite Hd in Hx.
    + apply NoDup_singleton.
  - by rewrite fmap_id_update_first.
  - eapply sublist_NoDup; [exact Hnd | apply delete_first_ids_sublist].
  - done.
Qed.

End Footprint.

(** ** Creating and updating: what the store accepts *)

Section Acceptance.
Context `{Mongoose}.
Variable env : gmap string string.
Variable amb : Ambient.

Lemma find_doc_snoc_fresh (o : ObjectId) (ds : list Doc) (d : Doc) :
  o ∉ _id <$> ds → _id d = o → find_doc o (ds ++ [d]) = Some d.
Proof.
  intros Hfresh Hd. apply find_doc_None in Hfresh. unfold find_doc in *.
  induction ds as [|d' ds IH]; simpl in *.
  - by rewrite (proj2 (N.eqb_eq _ _) Hd).
  - destruct (N.eqb (_id d') o); [done | by apply IH].
Qed.

Lemma pick_agree (ks : list string) (b1 b2 : gmap string value) :
  (∀ k, k ∈ ks → b1 !! k = b2 !! k) → pick ks b1 = pick ks b2.
Proof.
  intros Hb. apply map_eq. intros k. rewrite !pick_lookup.
  case_decide; [by apply Hb | done].
Qed.

Lemma cast_errors_fold (obj : gmap string value) (sch : list (string * SchemaPath))
    (m0 : Model) (e : string * SchemaPath) (v : value) :
  e ∈ sch → obj !! e.1 = Some v → cast (stype e.2) v = None →
  cast_errors (foldr (init_path amb obj) m0 sch) ≠ [].
Proof.
  intros He Hv Hc. induction sch as [|[p sp] sch IH]; [by apply elem_of_nil in He|].
  simpl. apply elem_of_cons in He as [->|He].
  - simpl in Hv, Hc. unfold init_path. by rewrite Hv, Hc.
  - specialize (IH He). unfold init_path.
    destruct (obj !! p) as [v'|].
    + by destruct (cast (stype sp) v').
    + by destruct (default_value amb (default sp)).
Qed.

Lemma castUpdate_refuses (upd : gmap string value) (e : string * SchemaPath) (v : value) :
  e ∈ productSchema → upd !! e.1 = Some v → cast (stype e.2) v = None →
  castUpdate upd = None.
Proof.
  intros He Hv Hc.
  assert (Hp : castPaths upd = None).
  { unfold castPaths.
    induction productSchema as [|e' sch IH]; [by apply elem_of_nil in He|].
    simpl. apply elem_of_cons in He as [<-|He].
    - rewrite Hv, Hc. by destruct (foldr _ _ _).
    - rewrite (IH He). by destruct (upd !! e'.1). }
  unfold castUpdate. rewrite Hp. case_decide; [done|]. by destruct (castOther _).
Qed.

(** The two ways a create ends. *)
Lemma create_ends (rq : request) (w : world) :
  ∃ d,
    serve env amb POST_products rq w
    = (Resolved (mkResponse 200 (JDoc d)), mkWorld (db w ++ [d]) (tmp w))
    ∨ ∃ resp, status resp ≠ 200%Z ∧ serve env amb POST_products rq w = (Resolved resp, w).
Proof.
  exists (set_version (doc (new_Product amb (pick product_fields (body rq))))).
  destruct (serve_cases env amb POST_products rq w) as [[_ ->] | ->].
  { right. eexists. split; [|reflexivity]. discriminate. }
  unfold behind_gate; simpl. rewrite create_product_run.
  destruct (negb (truthy _)); [right; eexists; split; [|reflexivity]; discriminate|].
  cbv zeta.
  destruct (negb (valid _)); [right; eexists; split; [|reflexivity]; discriminate|].
  destruct (bool_decide _); [right; eexists; split; [|reflexivity]; discriminate | by left].
Qed.

(** X4: create answers 200 exactly when it persists: either the answer is
    200 with a record that carries the new identifier and is appended to
    the store, or the answer is not 200 and the state is unchanged. *)
Theorem create_answers_200_exactly_when_it_persists (rq : request) (w : world) :
  ∃ resp w',
    serve env amb POST_products rq w = (Resolved resp, w') ∧
    ((status resp = 200%Z ∧
      ∃ d, json resp = JDoc d ∧ _id d = new_ObjectId amb ∧
           w' = mkWorld (db w ++ [d]) (tmp w))
     ∨ (status resp ≠ 200%Z ∧ w' = w)).
Proof.
  destruct (serve_cases env amb POST_products rq w) as [[_ ->] | ->].
  { eexists _, _. split; [done|]. right. by split. }
  unfold behind_gate; simpl. rewrite create_product_run.
  destruct (negb (truthy _)); [eexists _, _; split; [done|]; right; by split|].
  cbv zeta.
  destruct (negb (valid _)); [eexists _, _; split; [done|]; right; by split|].
  destruct (bool_decide _); [eexists _, _; split; [done|]; right; by split|].
  eexists _, _. split; [done|]. left. split; [done|].
  eexists. split; [done|]. split; [exact (new_Product_id amb _) | done].
Qed.

(** X5: a record that create answered with is found again: when create
    answers 200, a get-one right after, for an identifier that denotes the
    new record, gives the very same answer and changes nothing, and the
    store holds one record more. *)
Theorem created_record_is_found (rq rq' : request) (w w' : world) (resp : response) :
  serve env amb POST_products rq w = (Resolved resp, w') →
  status resp = 200%Z →
  castObjectId (params_id rq') = Some (new_ObjectId amb) →
  serve env amb GET_product rq' w' = (Resolved resp, w') ∧
  length (db w') = S (length (db w)).
Proof.
  intros Hrun Hst Hid.
  destruct (serve_cases env amb POST_products rq w) as [[_ E] | E];
    rewrite E in Hrun; [by injection Hrun as <- <-|].
  unfold behind_gate in Hrun; simpl in Hrun. rewrite create_product_run in Hrun.
  destruct (negb (truthy _)); [by injection Hrun as <- <-|]. cbv zeta in Hrun.
  destruct (negb (valid _)); [by injection Hrun as <- <-|].
  destruct (bool_decide _) eqn:Hfresh; [by injection Hrun as <- <-|].
  apply bool_decide_eq_false in Hfresh. injection Hrun as <- <-.
  split.
  - unfold serve; simpl. rewrite get_product_run, Hid. cbn [db].
    rewrite find_doc_snoc_fresh; [done | done | exact (new_Product_id amb _)].
  - cbn [db]. rewrite length_app. simpl. lia.
Qed.

(** X6: create reads nothing of a request but its token and the six product
    fields of its body: two requests with the same headers and query whose
    bodies agree on name, brand, size, description, price and imageUrl get
    the same answer and have the same effect, so that a body cannot choose
    the identifier or the creation date of the record. *)
Theorem create_reads_product_fields_only (rq1 rq2 : request) (w : world) :
  headers rq1 = headers rq2 →
  query rq1 = query rq2 →
  (∀ k, k ∈ product_fields → body rq1 !! k = body rq2 !! k) →
  serve env amb POST_products rq1 w = serve env amb POST_products rq2 w.
Proof.
  intros Hh Hq Hb. unfold serve; simpl. unfold checkAdmin, token_of.
  rewrite Hh, Hq. destruct (negb _ || negb _); [done|].
  rewrite !create_product_run.
  rewrite (Hb "name") by (unfold product_fields; in_list).
  by rewrite (pick_agree _ _ _ Hb).
Qed.

(** X7: a create whose name is truthy but one of whose product fields the
    store cannot cast to the type of its path is answered with 500, not
    400, and persists nothing. *)
Theorem create_refuses_uncastable_field (rq : request) (w : world)
    (e : string * SchemaPath) (v : value) :
  authorized env POST_products rq →
  truthy (body rq !! "name") = true →
  e ∈ productSchema → e.1 ∈ product_fields →
  body rq !! e.1 = Some v → cast (stype e.2) v = None →
  serve env amb POST_products rq w = (Resolved (mkResponse 500 (error_body "Server error")), w).
Proof.
  intros Ha Hn He Hk Hv Hc. rewrite serve_authorized by done.
  unfold behind_gate; simpl. rewrite create_product_run, Hn. cbn [negb]. cbv zeta.
  assert (Hinv : valid (new_Product amb (pick product_fields (body rq))) = false).
  { unfold valid. rewrite bool_decide_eq_false_2; [done|].
    apply (cast_errors_fold _ _ _ e v); [done| |done].
    by rewrite pick_lookup, decide_True. }
  by rewrite Hinv.
Qed.

(** X8: an update is all or nothing: when one supplied value cannot be cast
    to the type of its path, the answer is 500 and no field of any record
    changes, whatever the identifier and the other supplied values. *)
Theorem update_refuses_uncastable_field (rq : request) (w : world)
    (e : string * SchemaPath) (v : value) :
  authorized env PUT_product rq →
  e ∈ productSchema →
  body rq !! e.1 = Some v → cast (stype e.2) v = None →
  serve env amb PUT_product rq w = (Resolved (mkResponse 500 (error_body "Server error")), w).
Proof.
  intros Ha He Hv Hc. rewrite serve_authorized by done.
  unfold behind_gate; simpl. rewrite update_product_run.
  assert (Hu : castUpdate (body rq) = None)
    by (by apply (castUpdate_refuses _ e v)).
  rewrite Hu. by destruct (castObjectId (params_id rq)).
Qed.

End Acceptance.

(** ** Deleting, and updating without validation *)

Section Removal.
Context `{Mongoose}.
Variable env : gmap string string.
Variable amb : Ambient.

Lemma find_doc_delete_first_other (o o' : ObjectId) (ds : list Doc) :
  o' ≠ o → find_doc o' (delete_first o ds) = find_doc o' ds.
Proof.
  intros Hne. unfold find_doc. induction ds as [|d ds IH]; simpl; [done|].
  destruct (N.eqb_spec (_id d) o) as [Hd|Hd]; simpl.
  - rewrite Hd. by rewrite (proj2 (N.eqb_neq o o')).
  - by rewrite IH.
Qed.

Lemma find_doc_delete_first_same (o : ObjectId) (ds : list Doc) :
  NoDup (_id <$> ds) → find_doc o (delete_first o ds) = None.
Proof.
  induction ds as [|d ds IH]; [done|]. rewrite fmap_cons, NoDup_cons.
  intros [Hd Hnd]. cbn [delete_first].
  destruct (N.eqb_spec (_id d) o) as [Ho|Ho].
  - apply find_doc_None. by rewrite <- Ho.
  - unfold find_doc in *. simpl. rewrite (proj2 (N.eqb_neq _ _) Ho). by apply IH.
Qed.

Lemma length_delete_first_found (o : ObjectId) (ds : list Doc) (d : Doc) :
  find_doc o ds = Some d → length ds = S (length (delete_first o ds)).
Proof.
  unfold find_doc. induction ds as [|d' ds IH]; simpl; [done|].
  destruct (N.eqb (_id d') o); [done|]. intros Hf. simpl. by rewrite (IH Hf).
Qed.

(** X9: an authorized delete for an identifier that a record of the store
    has, in a store without duplicate identifiers, answers 200 with
    [{ ok: true }] and removes that record and no other; a get-one and a
    second delete for the same identifier right after are answered with
    404. *)
Theorem delete_removes_the_record (rq : request) (w : world) (o : ObjectId) (d : Doc) :
  authorized env DELETE_product rq →
  castObjectId (params_id rq) = Some o →
  find_doc o (db w) = Some d →
  NoDup (ids w) →
  let w' := mkWorld (delete_first o (db w)) (tmp w) in
  serve env amb DELETE_product rq w
  = (Resolved (mkResponse 200 (JObject {[ "ok" := VBool true ]})), w') ∧
  find_doc o (db w') = None ∧
  (∀ o', o' ≠ o → find_doc o' (db w') = find_doc o' (db w)) ∧
  length (db w) = S (length (db w')) ∧
  serve env amb GET_product rq w' = (Resolved (mkResponse 404 (error_body "Not found")), w') ∧
  serve env amb DELETE_product rq w' = (Resolved (mkResponse 404 (error_body "Not found")), w').
Proof.
  intros Ha Ho Hf Hnd w'.
  assert (Hgone : find_doc o (db w') = None) by (by apply find_doc_delete_first_same).
  split; [|split; [done|split; [|split; [|split]]]].
  - rewrite serve_authorized by done. unfold behind_gate; simpl.
    by rewrite delete_product_run, Ho, Hf.
  - intros o' Hne. by apply find_doc_delete_first_other.
  - by apply (length_delete_first_found o _ d).
  - unfold serve; simpl. by rewrite get_product_run, Ho, Hgone.
  - rewrite serve_authorized by done. unfold behind_gate; simpl.
    by rewrite delete_product_run, Ho, Hgone.
Qed.

(** X10: an update does not validate what create validates: an authorized
    update that sets the name of an existing record to the empty string is
    answered with 200 and the record then has an empty name, while a create
    with the same body is refused with 400. *)
Theorem update_may_empty_the_name `{!MongooseTyped}
    (rq : request) (w : world) (o : ObjectId) (d : Doc) :
  authorized env PUT_product rq →
  castObjectId (params_id rq) = Some o →
  find_doc o (db w) = Some d →
  partial_product (body rq) →
  body rq !! "name" = Some (VStr "") →
  (∃ d' w',
     serve env amb PUT_product rq w = (Resolved (mkResponse 200 (JDoc d')), w') ∧
     find_doc o (db w') = Some d' ∧
     fields d' !! "name" = Some (VStr "")) ∧
  serve env amb POST_products rq w
  = (Resolved (mkResponse 400 (error_body "Name is required")), w).
Proof.
  intros Ha Ho Hf Hb Hn. split.
  - rewrite serve_authorized by done. unfold behind_gate; simpl.
    rewrite update_product_run, Ho, (castUpdate_partial_product _ Hb), Hf.
    rewrite (updated_partial_product amb _ _ _ Hb).
    eexists _, _. split; [reflexivity|]. cbn [db]. split.
    + rewrite find_doc_update_first
        by (intros d0 _; by destruct (find_doc_Some _ _ _ Hf)).
      by rewrite N.eqb_refl, Hf.
    + simpl. by apply lookup_union_Some_l.
  - rewrite serve_authorized by (intros _; by apply Ha).
    unfold behind_gate; simpl. by rewrite create_product_run, Hn.
Qed.

End Removal.

(** ** Configuration, login and the gate together *)

Section Access.
Context `{Mongoose}.
Variable env : gmap string string.
Variable amb : Ambient.

(** X11: whatever the environment, the admin token is a non-empty string: a
    configured value that is not empty is used as it is, an empty value is
    replaced by 'changeme' like an absent one; hence under no configuration
    does a request without a token, or with an empty or otherwise falsy
    one, pass the gate. *)
Theorem admin_token_is_never_empty :
  ADMIN_TOKEN env ≠ "" ∧
  (∀ s, env !! "ADMIN_TOKEN" = Some s → s ≠ "" → ADMIN_TOKEN env = s) ∧
  (env !! "ADMIN_TOKEN" = Some "" → ADMIN_TOKEN env = "changeme") ∧
  (∀ r rq w, guarded r = true → truthy (token_of rq) = false →
             serve env amb r rq w = (Resolved unauthorized, w)).
Proof.
  split; [apply ADMIN_TOKEN_nonempty|]. split; [|split].
  - intros s Hs Hne. unfold ADMIN_TOKEN, or_str. rewrite Hs.
    by destruct (String.eqb_spec s "").
  - intros Hs. unfold ADMIN_TOKEN. by rewrite Hs.
  - intros r rq w Hg Ht. destruct (guarded_stack env amb r Hg) as [ms Hms].
    unfold serve. rewrite Hms. simpl. unfold checkAdmin. by rewrite Ht.
Qed.

(** X12: without an admin password in the environment, or with an empty
    one, nobody logs in: every login request is answered with 400 or 401,
    never with the token. *)
Theorem no_password_no_login (rq : request) (w : world) :
  env !! "ADMIN_PASSWORD" = None ∨ env !! "ADMIN_PASSWORD" = Some "" →
  serve env amb POST_login rq w = (Resolved missing_password, w)
  ∨ serve env amb POST_login rq w = (Resolved wrong_password, w).
Proof.
  intros He. unfold serve; simpl.
  destruct (login_run env rq w) as [E | [E | (Ht & Hp & _)]]; [by left | by right|].
  exfalso. rewrite Hp in Ht. unfold ADMIN_PASSWORD, get_str in Ht.
  by destruct He as [He|He]; rewrite He in Ht.
Qed.

(** X13: the token that a successful login hands out opens the gate: when a
    login is answered with 200, its body is [{ ok: true, token: t }], and
    every request that carries [t] in the header, or in the query when it
    has no header, passes the gate of every guarded route. *)
Theorem login_token_opens_gate (rq0 : request) (w0 w1 : world) (resp : response) :
  serve env amb POST_login rq0 w0 = (Resolved resp, w1) →
  status resp = 200%Z →
  ∃ t, json resp = JObject {[ "ok" := VBool true; "token" := VStr t ]} ∧
       ∀ r rq w,
         headers rq !! "x-admin-token" = Some t
         ∨ (headers rq !! "x-admin-token" = None ∧ query rq !! "token" = Some (VStr t)) →
         serve env amb r rq w = behind_gate env amb r rq w.
Proof.
  unfold serve at 1; simpl. intros Hrun Hst.
  destruct (login_run env rq0 w0) as [E | [E | (_ & _ & E)]];
    rewrite E in Hrun; injection Hrun as <- <-; try discriminate Hst.
  exists (ADMIN_TOKEN env). split; [done|].
  intros r rq w Hrq. apply serve_authorized. intros _. unfold candidate.
  destruct Hrq as [-> | [-> ->]]; [|done].
  rewrite decide_False; [done | apply ADMIN_TOKEN_nonempty].
Qed.

(** X14: when the header is absent or empty, a query token that is not a
    string (none at all, or the array or object that the query parser
    builds from a repeated or bracketed parameter) is rejected with 401 on
    every guarded route, even when the array holds the admin token. *)
Theorem gate_rejects_token_that_is_not_a_string (r : route) (rq : request) (w : world) :
  guarded r = true →
  headers rq !! "x-admin-token" = None ∨ headers rq !! "x-admin-token" = Some "" →
  (∀ s, query rq !! "token" ≠ Some (VStr s)) →
  serve env amb r rq w = (Resolved unauthorized, w).
Proof.
  intros Hg Hh Hq. destruct (guarded_stack env amb r Hg) as [ms Hms].
  unfold serve. rewrite Hms. simpl. rewrite checkAdmin_reject; [done|].
  rewrite token_of_candidate. unfold candidate.
  destruct Hh as [-> | ->]; apply Hq.
Qed.

(** X15: an authorized upload request without a file is answered with 400
    and changes nothing; the media host is not consulted, the answer being
    the same whatever the host would do. *)
Theorem upload_without_file (rq : request) (w : world) :
  authorized env POST_upload rq →
  attachment rq = None → file rq = None →
  serve env amb POST_upload rq w
  = (Resolved (mkResponse 400 (error_body "No file uploaded")), w).
Proof.
  intros Ha Hatt Hfile. rewrite serve_authorized by done.
  by rewrite behind_gate_upload, Hatt, upload_image_run, Hfile.
Qed.

(** X16: an authorized upload that the media host accepts is answered with
    200 and the URL and identifier that the host returned; afterwards the
    staged file is gone, every other file under tmp/ is still there, and
    the store is untouched. *)
Theorem upload_success_cleans_up (rq : request) (w : world) (p url public_id : string) :
  authorized env POST_upload rq →
  attachment rq = Some p →
  uploader_upload amb p "jubilate_products" = Resolved (url, public_id) →
  serve env amb POST_upload rq w
  = (Resolved (mkResponse 200 (JObject {[ "ok" := VBool true;
                                          "url" := VStr url;
                                          "public_id" := VStr public_id ]})),
     mkWorld (db w) (tmp w ∖ {[ p ]})).
Proof.
  intros Ha Hatt Hup. rewrite (upload_run env amb rq w p Ha Hatt), Hup. simpl.
  do 2 f_equal. apply set_eq. intros x.
  rewrite !elem_of_difference, elem_of_union, elem_of_singleton. tauto.
Qed.

End Access.

Section Listing.
Context `{Mongoose}.
Variable env : gmap string string.
Variable amb : Ambient.

(** X17: a record that create answered with is listed: when create answers
    200, the list right after holds that record and the records the store
    had before, and nothing else. *)
Theorem created_record_is_listed (rq rq' : request) (w w' : world) (resp : response) :
  serve env amb POST_products rq w = (Resolved resp, w') →
  status resp = 200%Z →
  ∃ d products,
    json resp = JDoc d ∧
    serve env amb GET_products rq' w' = (Resolved (mkResponse 200 (JDocs products)), w') ∧
    products ≡ₚ d :: db w ∧
    length products = S (length (db w)).
Proof.
  intros Hrun Hst.
  destruct (create_ends env amb rq w) as (d & [E | (resp0 & Hne & E)]);
    rewrite E in Hrun; injection Hrun as <- <-; [|done].
  assert (Hp : merge_sort newer_first (db w ++ [d]) ≡ₚ d :: db w).
  { rewrite merge_sort_Permutation. by rewrite Permutation_app_comm. }
  exists d, (merge_sort newer_first (db w ++ [d])).
  split; [done|]. split; [reflexivity|]. split; [done|]. by rewrite Hp.
Qed.

End Listing.

(** ** The further properties at work on the sample shop *)

Lemma shop_ids_unique : NoDup (ids shop).
Proof. apply NoDup_singleton. Qed.

Lemma unname_partial : partial_product (body unname_lipstick).
Proof.
  intros k v Hkv.
  change (body unname_lipstick) with ({[ "name" := VStr "" ]} : gmap string value) in Hkv.
  apply lookup_singleton_Some in Hkv as [<- <-]. split.
  - unfold product_fields; in_list.
  - by exists "".
Qed.

Lemma create_mascara_runs :
  serve shop_env host_up POST_products create_mascara shop
  = (Resolved (mkResponse 200 (JDoc mascara)), mkWorld [lipstick; mascara] ∅).
Proof. vm_compute. reflexivity. Qed.

Lemma ids_stay_unique_witness :
  NoDup (ids shop) ∧
  NoDup (ids (serve shop_env host_up POST_products create_mascara shop).2).
Proof.
  split; [exact shop_ids_unique|].
  apply (ids_stay_unique shop_env host_up POST_products create_mascara shop shop_ids_unique).
Defined.

Lemma created_record_is_found_witness :
  serve shop_env host_up GET_product get_mascara (mkWorld [lipstick; mascara] ∅)
  = (Resolved (mkResponse 200 (JDoc mascara)), mkWorld [lipstick; mascara] ∅) ∧
  length (db (mkWorld [lipstick; mascara] ∅)) = S (length (db shop)).
Proof.
  apply (created_record_is_found shop_env host_up create_mascara get_mascara shop);
    [exact create_mascara_runs | reflexivity | reflexivity].
Defined.

Lemma created_record_is_listed_witness :
  ∃ d products,
    JDoc mascara = JDoc d ∧
    serve shop_env host_up GET_products empty_request (mkWorld [lipstick; mascara] ∅)
    = (Resolved (mkResponse 200 (JDocs products)), mkWorld [lipstick; mascara] ∅) ∧
    products ≡ₚ d :: db shop ∧
    length products = S (length (db shop)).
Proof.
  apply (created_record_is_listed shop_env host_up create_mascara empty_request shop
           (mkWorld [lipstick; mascara] ∅) (mkResponse 200 (JDoc mascara)));
    [exact create_mascara_runs | reflexivity].
Defined.

Lemma create_reads_product_fields_only_witness :
  body create_mascara_backdated !! "createdAt" = Some (VNum 0) ∧
  serve shop_env host_up POST_products create_mascara_backdated shop
  = serve shop_env host_up POST_products create_mascara shop.
Proof.
  split; [reflexivity|].
  apply (create_reads_product_fields_only shop_env host_up
           create_mascara_backdated create_mascara shop); [reflexivity | reflexivity |].
  intros k Hk.
  repeat (apply elem_of_cons in Hk as [->|Hk]; [reflexivity|]).
  by apply elem_of_nil in Hk.
Defined.

Lemma create_refuses_uncastable_field_witness :
  body create_bad_price !! "price" = Some (VArr []) ∧
  serve shop_env host_up POST_products create_bad_price shop
  = (Resolved (mkResponse 500 (error_body "Server error")), shop).
Proof.
  split; [reflexivity|].
  apply (create_refuses_uncastable_field shop_env host_up create_bad_price shop
           ("price", mkPath SNumber false (DefaultValue (VNum 0))) (VArr []));
    [by apply authorized_by_header | reflexivity | unfold productSchema; in_list
    | unfold product_fields; in_list | reflexivity | reflexivity].
Defined.

Lemma update_refuses_uncastable_field_witness :
  body update_bad_price !! "name" = Some (VStr "Rouge") ∧
  serve shop_env host_up PUT_product update_bad_price shop
  = (Resolved (mkResponse 500 (error_body "Server error")), shop).
Proof.
  split; [reflexivity|].
  apply (update_refuses_uncastable_field shop_env host_up update_bad_price shop
           ("price", mkPath SNumber false (DefaultValue (VNum 0))) (VArr []));
    [by apply authorized_by_header | unfold productSchema; in_list
    | reflexivity | reflexivity].
Defined.

Lemma delete_removes_the_record_witness :
  serve shop_env host_up DELETE_product delete_lipstick shop
  = (Resolved (mkResponse 200 (JObject {[ "ok" := VBool true ]})), mkWorld [] ∅) ∧
  serve shop_env host_up GET_product delete_lipstick (mkWorld [] ∅)
  = (Resolved (mkResponse 404 (error_body "Not found")), mkWorld [] ∅).
Proof.
  destruct (delete_removes_the_record shop_env host_up delete_lipstick shop 1%N lipstick)
    as (Hrun & _ & _ & _ & Hget & _);
    [by apply authorized_by_header | reflexivity | reflexivity | exact shop_ids_unique|].
  split; [exact Hrun | exact Hget].
Defined.

Lemma update_may_empty_the_name_witness :
  (∃ d' w',
     serve shop_env host_up PUT_product unname_lipstick shop
     = (Resolved (mkResponse 200 (JDoc d')), w') ∧
     find_doc 1%N (db w') = Some d' ∧
     fields d' !! "name" = Some (VStr "")) ∧
  serve shop_env host_up POST_products unname_lipstick shop
  = (Resolved (mkResponse 400 (error_body "Name is required")), shop).
Proof.
  apply (update_may_empty_the_name shop_env host_up unname_lipstick shop 1%N lipstick);
    [by apply authorized_by_header | reflexivity | reflexivity | exact unname_partial
    | reflexivity].
Defined.

Lemma no_password_no_login_witness :
  no_password_env !! "ADMIN_PASSWORD" = None ∧
  (serve no_password_env host_up POST_login login_good shop = (Resolved missing_password, shop)
   ∨ serve no_password_env host_up POST_login login_good shop
     = (Resolved wrong_password, shop)).
Proof.
  assert (He : no_password_env !! "ADMIN_PASSWORD" = None) by reflexivity.
  split; [exact He|].
  apply (no_password_no_login no_password_env host_up login_good shop). by left.
Defined.

Lemma login_token_opens_gate_witness :
  ∃ t, json (logged_in shop_env) = JObject {[ "ok" := VBool true; "token" := VStr t ]} ∧
       ∀ r rq w,
         headers rq !! "x-admin-token" = Some t
         ∨ (headers rq !! "x-admin-token" = None ∧ query rq !! "token" = Some (VStr t)) →
         serve shop_env host_up r rq w = behind_gate shop_env host_up r rq w.
Proof.
  apply (login_token_opens_gate shop_env host_up login_good shop shop (logged_in shop_env));
    [vm_compute; reflexivity | reflexivity].
Defined.

Lemma gate_rejects_token_that_is_not_a_string_witness :
  query create_token_twice !! "token" = Some (VArr [VStr "tok-4711"; VStr "tok-4711"]) ∧
  serve shop_env host_up POST_products create_token_twice shop = (Resolved unauthorized, shop).
Proof.
  assert (Hq : query create_token_twice !! "token"
               = Some (VArr [VStr "tok-4711"; VStr "tok-4711"])) by reflexivity.
  split; [exact Hq|].
  apply (gate_rejects_token_that_is_not_a_string shop_env host_up POST_products
           create_token_twice shop); [reflexivity | by left |].
  intros s Hs. rewrite Hq in Hs. discriminate Hs.
Defined.

Lemma upload_without_file_witness :
  serve shop_env host_down POST_upload upload_nothing shop
  = (Resolved (mkResponse 400 (error_body "No file uploaded")), shop).
Proof.
  apply (upload_without_file shop_env host_down upload_nothing shop);
    [by apply authorized_by_header | reflexivity | reflexivity].
Defined.

Lemma upload_success_cleans_up_witness :
  serve shop_env host_up POST_upload upload_photo busy_shop
  = (Resolved (mkResponse 200
       (JObject {[ "ok" := VBool true;
                   "url" := VStr "https://res.cloudinary.com/demo/jubilate_products/a1.png";
                   "public_id" := VStr "jubilate_products/a1" ]})),
     mkWorld (db busy_shop) (tmp busy_shop ∖ {[ "tmp/4f2a9c" ]})) ∧
  "tmp/0b7e" ∈ tmp busy_shop ∖ {[ "tmp/4f2a9c" ]}.
Proof.
  split.
  - apply (upload_success_cleans_up shop_env host_up upload_photo busy_shop "tmp/4f2a9c"
             "https://res.cloudinary.com/demo/jubilate_products/a1.png"
             "jubilate_products/a1");
      [by apply authorized_by_header | reflexivity | reflexivity].
  - apply elem_of_difference. split.
    + apply elem_of_union_l. by apply elem_of_singleton.
    + intros Hx%elem_of_singleton. discriminate Hx.
Defined.
